(** * System resource monitor: sampling, recording session and report statistics

    A shallow embedding of [monitor.py], [app.py] and of what
    [pdf_generator.py] computes: the statistics, the content of the report,
    the lines of a chart and the report font.

    Modelling conventions.
    - Python [int] counters are [Z]; Python [float] values (clock readings,
      rates, percentages) are idealised as exact rationals [Q].  Properties
      are stated up to [==] on [Q].
    - A Python exception is an explicit [Raise e] result; true division
      raises [ZeroDivisionError] on a zero divisor.
    - [self] of [SystemMonitor] and the module-level globals of [app.py] are
      explicit states threaded through every call.
    - OS readings ([psutil], [GPUtil], [time.time()]) are inputs of the
      functions that perform them. *)

From Stdlib Require Import ZArith QArith Qround Qabs Lqa Lia Bool List String.
Import ListNotations.

Local Open Scope Z_scope.
Local Open Scope Q_scope.

(** ** Python results *)

Inductive exn : Type :=
| ZeroDivisionError
| ProviderError (msg : string).

Inductive result (A : Type) : Type :=
| Ok (a : A)
| Raise (e : exn).
Arguments Ok {A} a.
Arguments Raise {A} e.

(** ** Python arithmetic on idealised floats *)

Module Py.

(** [a / b] on numbers. *)
Definition truediv (a b : Q) : result Q :=
  if Qeq_bool b 0 then Raise ZeroDivisionError else Ok (a / b).

(** Nearest integer, ties to the even neighbour. *)
Definition round_half_even (x : Q) : Z :=
  let n := Qnum x in
  let d := Zpos (Qden x) in
  let f := (n / d)%Z in
  let r := (n mod d)%Z in
  match (2 * r ?= d)%Z with
  | Lt => f
  | Gt => (f + 1)%Z
  | Eq => if Z.even f then f else (f + 1)%Z
  end.

(** [round(x, ndigits)], on the exact value.  Python rounds the binary
    float it holds, which can differ from this only at a decimal tie. *)
Definition round (x : Q) (ndigits : nat) : Q :=
  let p := Pos.pow 10 (Pos.of_nat ndigits) in
  match ndigits with
  | O => inject_Z (round_half_even x)
  | S _ => Qmake (round_half_even (x * inject_Z (Zpos p))) p
  end.

(** [sum(l)], [min(l)], [max(l)] on a list of numbers; [min] and [max] are
    only called on non-empty lists and take the head as the start value. *)
Definition sum (l : list Q) : Q := fold_left Qplus l 0.

Definition min2 (a b : Q) : Q := if Qlt_le_dec b a then b else a.
Definition max2 (a b : Q) : Q := if Qlt_le_dec a b then b else a.

Definition min (d : Q) (l : list Q) : Q := fold_left min2 l d.
Definition max (d : Q) (l : list Q) : Q := fold_left max2 l d.

(** [v or 0] for an optional number: [None] and zero are falsy. *)
Definition or0 (v : option Q) : Q :=
  match v with
  | Some t => if Qeq_bool t 0 then 0 else t
  | None => 0
  end.

End Py.

(** ** [monitor.py] *)

Module psutil.

(** The named tuples returned by [disk_io_counters()] and
    [net_io_counters()], restricted to the fields the monitor reads. *)
Record sdiskio : Type := {
  read_bytes : Z;
  write_bytes : Z
}.

Record snetio : Type := {
  bytes_sent : Z;
  bytes_recv : Z;
  packets_sent : Z;
  packets_recv : Z
}.

End psutil.

Module Monitor.

(** The attributes of a [SystemMonitor] instance. *)
Record SystemMonitor : Type := {
  last_net_io : psutil.snetio;
  last_disk_io : psutil.sdiskio;
  last_time : Q
}.

(** [__init__]: the three attributes are read from the OS. *)
Definition init (net : psutil.snetio) (disk : psutil.sdiskio) (now : Q)
  : SystemMonitor :=
  {| last_net_io := net; last_disk_io := disk; last_time := now |}.

Record partition : Type := {
  mountpoint : string;
  part_percent : Q;
  total_gb : Q;
  used_gb : Q;
  free_gb : Q
}.

Record disk_io : Type := {
  io_read_bytes : Z;
  io_write_bytes : Z;
  read_speed : Q;
  write_speed : Q
}.

Record disk_info : Type := {
  partitions : list partition;
  io : disk_io
}.

Record interface : Type := {
  if_name : string;
  if_ip : option string;
  if_speed : Z;
  if_is_up : bool
}.

Record network_info : Type := {
  net_bytes_sent : Z;
  net_bytes_recv : Z;
  net_packets_sent : Z;
  net_packets_recv : Z;
  bytes_sent_speed : Q;
  bytes_recv_speed : Q;
  bytes_sent_speed_mb : Q;
  bytes_recv_speed_mb : Q;
  interfaces : list interface
}.

(** A method of [SystemMonitor]: it may update [self] and may raise. *)
Definition method (A : Type) : Type := SystemMonitor -> result A * SystemMonitor.

Definition ret {A} (a : A) : method A := fun self => (Ok a, self).

Definition bind {A B} (c : method A) (k : A -> method B) : method B :=
  fun self =>
    match c self with
    | (Ok a, self') => k a self'
    | (Raise e, self') => (Raise e, self')
    end.

Definition lift {A} (r : result A) : method A := fun self => (r, self).

Definition getattr {A} (f : SystemMonitor -> A) : method A :=
  fun self => (Ok (f self), self).

Definition set_last_disk_io (v : psutil.sdiskio) : method unit :=
  fun self =>
    (Ok tt, {| last_net_io := last_net_io self;
               last_disk_io := v;
               last_time := last_time self |}).

Definition set_last_net_io (v : psutil.snetio) : method unit :=
  fun self =>
    (Ok tt, {| last_net_io := v;
               last_disk_io := last_disk_io self;
               last_time := last_time self |}).

Definition set_last_time (v : Q) : method unit :=
  fun self =>
    (Ok tt, {| last_net_io := last_net_io self;
               last_disk_io := last_disk_io self;
               last_time := v |}).

Declare Scope method_scope.
Delimit Scope method_scope with method.
Notation "x <- c ;; k" := (bind c (fun x => k))
  (at level 61, c at next level, right associativity) : method_scope.
Notation "c ;;; k" := (bind c (fun _ => k))
  (at level 61, right associativity) : method_scope.
Local Open Scope method_scope.

Definition MB : Q := inject_Z (1024 ^ 2).
Definition KB : Q := inject_Z 1024.

(** The two speeds of one rate computation: [(cur - last) / time_diff] for
    each counter when [time_diff > 0], and [0] otherwise. *)
Definition speeds (time_diff : Q) (cur1 last1 cur2 last2 : Z) : result (Q * Q) :=
  if Qlt_le_dec 0 time_diff then
    match Py.truediv (inject_Z (cur1 - last1)) time_diff with
    | Raise e => Raise e
    | Ok s1 =>
        match Py.truediv (inject_Z (cur2 - last2)) time_diff with
        | Raise e => Raise e
        | Ok s2 => Ok (s1, s2)
        end
    end
  else Ok (0, 0).

(** [get_disk_info]: [parts] is the partition table already collected,
    [current_time] and [current_disk_io] the two OS readings. *)
Definition get_disk_info (parts : list partition) (current_time : Q)
    (current_disk_io : psutil.sdiskio) : method disk_info :=
  t0 <- getattr last_time ;;
  last <- getattr last_disk_io ;;
  let time_diff := current_time - t0 in
  sp <- lift (speeds time_diff
                (psutil.read_bytes current_disk_io) (psutil.read_bytes last)
                (psutil.write_bytes current_disk_io) (psutil.write_bytes last)) ;;
  let '(rs, ws) := sp in
  set_last_disk_io current_disk_io ;;;
  rrs <- lift (Py.truediv rs MB) ;;
  rws <- lift (Py.truediv ws MB) ;;
  ret {| partitions := parts;
         io := {| io_read_bytes := psutil.read_bytes current_disk_io;
                  io_write_bytes := psutil.write_bytes current_disk_io;
                  read_speed := Py.round rrs 2;
                  write_speed := Py.round rws 2 |} |}.

(** [get_network_info]: [ifaces] is the interface list collected after the
    rate computation. *)
Definition get_network_info (ifaces : list interface) (current_time : Q)
    (current_net_io : psutil.snetio) : method network_info :=
  t0 <- getattr last_time ;;
  last <- getattr last_net_io ;;
  let time_diff := current_time - t0 in
  sp <- lift (speeds time_diff
                (psutil.bytes_sent current_net_io) (psutil.bytes_sent last)
                (psutil.bytes_recv current_net_io) (psutil.bytes_recv last)) ;;
  let '(ss, rs) := sp in
  set_last_net_io current_net_io ;;;
  set_last_time current_time ;;;
  ssk <- lift (Py.truediv ss KB) ;;
  rsk <- lift (Py.truediv rs KB) ;;
  ssm <- lift (Py.truediv ss MB) ;;
  rsm <- lift (Py.truediv rs MB) ;;
  ret {| net_bytes_sent := psutil.bytes_sent current_net_io;
         net_bytes_recv := psutil.bytes_recv current_net_io;
         net_packets_sent := psutil.packets_sent current_net_io;
         net_packets_recv := psutil.packets_recv current_net_io;
         bytes_sent_speed := Py.round ssk 2;
         bytes_recv_speed := Py.round rsk 2;
         bytes_sent_speed_mb := Py.round ssm 2;
         bytes_recv_speed_mb := Py.round rsm 2;
         interfaces := ifaces |}.

(** Closed forms used to state what the two methods return: one speed, and
    the value reported for it after scaling and rounding to two places. *)
Definition rate (time_diff : Q) (cur last : Z) : Q :=
  if Qlt_le_dec 0 time_diff then inject_Z (cur - last) / time_diff else 0.

Definition reported (scale time_diff : Q) (cur last : Z) : Q :=
  Py.round (rate time_diff cur last / scale) 2.

(** *** GPU readings *)

(** A [GPUtil] GPU object, as far as [get_gpu_info] reads it. *)
Record GPU : Type := {
  id : Z;
  name : string;
  gload : Q;
  memoryTotal : Q;
  memoryUsed : Q;
  memoryFree : Q;
  gtemperature : option Q
}.

(** One entry of the ['gpus'] list.  The three metrics the report reads
    with [.get(key, 0)] are optional: [None] is a missing key (or, for the
    temperature, the value [None]). *)
Record gpu_entry : Type := {
  gpu_id : Z;
  gpu_name : string;
  load : option Q;
  memory_total : Q;
  memory_used : Q;
  memory_free : Q;
  memory_percent : option Q;
  temperature : option Q
}.

Record gpu_info : Type := {
  available : bool;
  gpus : list gpu_entry
}.

Definition no_gpu : gpu_info := {| available := false; gpus := [] |}.

Definition gpu_to_entry (g : GPU) : result gpu_entry :=
  match
    (if Qlt_le_dec 0 (memoryTotal g) then
       match Py.truediv (memoryUsed g) (memoryTotal g) with
       | Ok r => Ok (Py.round (r * 100) 1)
       | Raise e => Raise e
       end
     else Ok 0)
  with
  | Raise e => Raise e
  | Ok mp =>
      Ok {| gpu_id := id g;
            gpu_name := name g;
            load := Some (Py.round (gload g * 100) 1);
            memory_total := memoryTotal g;
            memory_used := memoryUsed g;
            memory_free := memoryFree g;
            memory_percent := Some mp;
            temperature := gtemperature g |}
  end.

Fixpoint gpu_list (l : list GPU) : result (list gpu_entry) :=
  match l with
  | [] => Ok []
  | g :: l' =>
      match gpu_to_entry g with
      | Raise e => Raise e
      | Ok e =>
          match gpu_list l' with
          | Raise e' => Raise e'
          | Ok es => Ok (e :: es)
          end
      end
  end.

(** [get_gpu_info]: [GPU_AVAILABLE] is the import flag of the module and
    [getGPUs] the outcome of [GPUtil.getGPUs()]; every exception of the
    [try] block yields the unavailable record. *)
Definition get_gpu_info (GPU_AVAILABLE : bool) (getGPUs : result (list GPU))
  : gpu_info :=
  if negb GPU_AVAILABLE then no_gpu
  else
    match getGPUs with
    | Raise _ => no_gpu
    | Ok l =>
        match gpu_list l with
        | Raise _ => no_gpu
        | Ok es => {| available := true; gpus := es |}
        end
    end.

(** *** The partition table and the interface list *)

Record sdiskpart : Type := {
  device : string;
  part_mountpoint : string;
  fstype : string
}.

Record sdiskusage : Type := {
  total : Z;
  used : Z;
  free : Z;
  percent : Q
}.

(** What [psutil.disk_usage(partition.mountpoint)] does: it returns, or
    raises [PermissionError], or raises something else. *)
Inductive usage_outcome : Type :=
| Usage (u : sdiskusage)
| PermissionError
| OtherError (e : exn).

Definition GB : Q := inject_Z (1024 ^ 3).

Definition partition_entry (p : sdiskpart) (u : sdiskusage) : partition :=
  {| mountpoint := part_mountpoint p;
     part_percent := percent u;
     total_gb := Py.round (inject_Z (total u) / GB) 2;
     used_gb := Py.round (inject_Z (used u) / GB) 2;
     free_gb := Py.round (inject_Z (free u) / GB) 2 |}.

(** The loop over [psutil.disk_partitions()]: a partition whose usage
    raises [PermissionError] is skipped, any other exception leaves the
    method. *)
Fixpoint collect_partitions (l : list (sdiskpart * usage_outcome))
  : result (list partition) :=
  match l with
  | [] => Ok []
  | (p, Usage u) :: rest =>
      match collect_partitions rest with
      | Ok ps => Ok (partition_entry p u :: ps)
      | Raise e => Raise e
      end
  | (_, PermissionError) :: rest => collect_partitions rest
  | (_, OtherError e) :: _ => Raise e
  end.

(** The partitions whose usage could be read, with their usage. *)
Definition readable (l : list (sdiskpart * usage_outcome))
  : list (sdiskpart * sdiskusage) :=
  flat_map (fun pu => match snd pu with
                      | Usage u => [(fst pu, u)]
                      | _ => []
                      end) l.

(** [psutil.disk_partitions()] returns the mounted partitions, each with
    what [disk_usage] will do on it, or raises; the loop runs over what it
    returned. *)
Definition read_partitions
    (disk_partitions : result (list (sdiskpart * usage_outcome)))
  : result (list partition) :=
  match disk_partitions with
  | Raise e => Raise e
  | Ok mounted => collect_partitions mounted
  end.

(** The whole of [get_disk_info]: the partition loop runs first, then
    the counters are read and the rates computed.  [disk_io_counters] is
    the outcome of [psutil.disk_io_counters()] where it returns counters
    or raises; a host without disks, where it returns [None], is outside
    this model. *)
Definition get_disk_info_os
    (disk_partitions : result (list (sdiskpart * usage_outcome)))
    (current_time : Q) (disk_io_counters : result psutil.sdiskio) : method disk_info :=
  parts <- lift (read_partitions disk_partitions) ;;
  current_disk_io <- lift disk_io_counters ;;
  get_disk_info parts current_time current_disk_io.

Record snicaddr : Type := {
  family_name : string;
  address : string
}.

Record snicstats : Type := {
  isup : bool;
  speed : Z
}.

(** [d.get(key)] on a dictionary kept as an association list. *)
Fixpoint dict_get {V} (key : string) (d : list (string * V)) : option V :=
  match d with
  | [] => None
  | (k, v) :: rest => if String.eqb k key then Some v else dict_get key rest
  end.

(** The inner loop: the address of the first [AF_INET] entry. *)
Fixpoint first_ipv4 (addrs : list snicaddr) : option string :=
  match addrs with
  | [] => None
  | a :: rest =>
      if String.eqb (family_name a) "AF_INET"%string then Some (address a)
      else first_ipv4 rest
  end.

(** The loop over [net_if_addrs.items()]. *)
Definition collect_interfaces (net_if_addrs : list (string * list snicaddr))
    (net_if_stats : list (string * snicstats)) : list interface :=
  flat_map
    (fun '(name, addrs) =>
       match dict_get name net_if_stats with
       | Some stats =>
           if isup stats
           then [{| if_name := name;
                    if_ip := first_ipv4 addrs;
                    if_speed := speed stats;
                    if_is_up := isup stats |}]
           else []
       | None => []
       end)
    net_if_addrs.

(** The whole of [get_network_info]: the counters are read, the rates
    computed and [last_net_io] and [last_time] assigned; only then are
    [psutil.net_if_addrs()] and [psutil.net_if_stats()] called, each of
    which may raise, and the interface list built. *)
Definition get_network_info_os (current_time : Q)
    (net_io_counters : result psutil.snetio)
    (net_if_addrs : result (list (string * list snicaddr)))
    (net_if_stats : result (list (string * snicstats))) : method network_info :=
  current_net_io <- lift net_io_counters ;;
  t0 <- getattr last_time ;;
  last <- getattr last_net_io ;;
  let time_diff := current_time - t0 in
  sp <- lift (speeds time_diff
                (psutil.bytes_sent current_net_io) (psutil.bytes_sent last)
                (psutil.bytes_recv current_net_io) (psutil.bytes_recv last)) ;;
  let '(ss, rs) := sp in
  set_last_net_io current_net_io ;;;
  set_last_time current_time ;;;
  addrs <- lift net_if_addrs ;;
  stats <- lift net_if_stats ;;
  ssk <- lift (Py.truediv ss KB) ;;
  rsk <- lift (Py.truediv rs KB) ;;
  ssm <- lift (Py.truediv ss MB) ;;
  rsm <- lift (Py.truediv rs MB) ;;
  ret {| net_bytes_sent := psutil.bytes_sent current_net_io;
         net_bytes_recv := psutil.bytes_recv current_net_io;
         net_packets_sent := psutil.packets_sent current_net_io;
         net_packets_recv := psutil.packets_recv current_net_io;
         bytes_sent_speed := Py.round ssk 2;
         bytes_recv_speed := Py.round rsk 2;
         bytes_sent_speed_mb := Py.round ssm 2;
         bytes_recv_speed_mb := Py.round rsm 2;
         interfaces := collect_interfaces addrs stats |}.

(** *** The full sample *)

Record system_info : Type := {
  platform : string;
  platform_release : string;
  hostname : string;
  processor : string;
  uptime_seconds : Z
}.

Record cpu_info : Type := {
  cpu_percent : Q;
  percent_per_core : list Q;
  frequency_current : Q;
  frequency_max : Q;
  cores_physical : Z;
  cores_logical : Z;
  cpu_temperature : option Q
}.

Record memory_info : Type := {
  mem_total : Z;
  mem_available : Z;
  mem_used : Z;
  mem_percent : Q;
  swap_total : Z;
  swap_used : Z;
  swap_percent : Q
}.

(** The dictionary built by [get_all_resources].  The report generator
    tests the presence of the top-level keys, so they are optional here;
    [get_all_resources] itself always fills all of them. *)
Record sample : Type := {
  timestamp : string;
  timestamp_ms : Z;
  system : option system_info;
  cpu : option cpu_info;
  gpu : option gpu_info;
  memory : option memory_info;
  disk : option disk_info;
  network : option network_info
}.

(** Everything one call of [get_all_resources] reads from outside, in the
    order of the reads.  [get_system_info], [get_cpu_info] and
    [get_memory_info] only repackage OS gauges and do not touch [self]:
    their outcome is taken as read. *)
Record os_reading : Type := {
  os_timestamp : string;
  os_timestamp_ms : Z;
  os_system : result system_info;
  os_cpu : result cpu_info;
  os_getGPUs : result (list GPU);
  os_memory : result memory_info;
  os_disk_partitions : result (list (sdiskpart * usage_outcome));
  os_disk_time : Q;
  os_disk_io : result psutil.sdiskio;
  os_net_time : Q;
  os_net_io : result psutil.snetio;
  os_net_if_addrs : result (list (string * list snicaddr));
  os_net_if_stats : result (list (string * snicstats))
}.

(** [get_all_resources]: the dictionary display evaluates its values in
    source order, so the disk call precedes the network call. *)
Definition get_all_resources (GPU_AVAILABLE : bool) (os : os_reading)
  : method sample :=
  s <- lift (os_system os) ;;
  c <- lift (os_cpu os) ;;
  let g := get_gpu_info GPU_AVAILABLE (os_getGPUs os) in
  m <- lift (os_memory os) ;;
  d <- get_disk_info_os (os_disk_partitions os) (os_disk_time os) (os_disk_io os) ;;
  n <- get_network_info_os (os_net_time os) (os_net_io os)
         (os_net_if_addrs os) (os_net_if_stats os) ;;
  ret {| timestamp := os_timestamp os;
         timestamp_ms := os_timestamp_ms os;
         system := Some s;
         cpu := Some c;
         gpu := Some g;
         memory := Some m;
         disk := Some d;
         network := Some n |}.

End Monitor.

(** ** [pdf_generator.py]: the statistics and the content of the report *)

Module PDFReportGenerator.
Import Monitor.

(** The dictionary returned by [_calculate_statistics]. *)
Record stats : Type := {
  avg : Q;
  smin : Q;
  smax : Q
}.

(** The mean is taken exactly here; the code rounds the float mean, which
    can fall on the other side of a decimal tie.  [smin] and [smax] are
    roundings of elements of the list, as in the code. *)
Definition _calculate_statistics (data_list : list Q) : result stats :=
  match data_list with
  | [] => Ok {| avg := 0; smin := 0; smax := 0 |}
  | x :: xs =>
      match Py.truediv (Py.sum data_list) (inject_Z (Z.of_nat (List.length data_list))) with
      | Raise e => Raise e
      | Ok a =>
          Ok {| avg := Py.round a 2;
                smin := Py.round (Py.min x xs) 2;
                smax := Py.round (Py.max x xs) 2 |}
      end
  end.

(** The dictionary [_calculate_statistics] returns when it returns. *)
Definition statistics (data_list : list Q) : stats :=
  match data_list with
  | [] => {| avg := 0; smin := 0; smax := 0 |}
  | x :: xs =>
      {| avg := Py.round (Py.sum data_list / inject_Z (Z.of_nat (List.length data_list))) 2;
         smin := Py.round (Py.min x xs) 2;
         smax := Py.round (Py.max x xs) 2 |}
  end.

(** [[f(d) for d in l if key in d]]: [f] is [None] where the key is absent. *)
Definition comprehension {A B} (f : A -> option B) (l : list A) : list B :=
  flat_map (fun d => match f d with Some b => [b] | None => [] end) l.

Definition cpu_data (recorded_data : list sample) : list Q :=
  comprehension (fun d => option_map cpu_percent (cpu d)) recorded_data.

Definition memory_data (recorded_data : list sample) : list Q :=
  comprehension (fun d => option_map mem_percent (memory d)) recorded_data.

Definition network_sent (recorded_data : list sample) : list Q :=
  comprehension (fun d => option_map bytes_sent_speed (network d)) recorded_data.

Definition network_recv (recorded_data : list sample) : list Q :=
  comprehension (fun d => option_map bytes_recv_speed (network d)) recorded_data.

Definition disk_read (recorded_data : list sample) : list Q :=
  comprehension (fun d => option_map (fun x => read_speed (io x)) (disk d)) recorded_data.

Definition disk_write (recorded_data : list sample) : list Q :=
  comprehension (fun d => option_map (fun x => write_speed (io x)) (disk d)) recorded_data.

(** [recorded_data and recorded_data[0].get('gpu', {}).get('available')] *)
Definition first_gpu_available (recorded_data : list sample) : bool :=
  match recorded_data with
  | [] => false
  | d0 :: _ =>
      match gpu d0 with
      | Some g => available g
      | None => false
      end
  end.

(** [d['gpu']['gpus'][0]] under the guard [d.get('gpu', {}).get('gpus')]. *)
Definition first_gpu (d : sample) : option gpu_entry :=
  match gpu d with
  | Some g => hd_error (gpus g)
  | None => None
  end.

Definition default0 (v : option Q) : Q :=
  match v with Some x => x | None => 0 end.

(** The three GPU series, filled by one loop guarded by the availability
    of the first sample. *)
Definition gpu_series (f : gpu_entry -> Q) (recorded_data : list sample) : list Q :=
  if first_gpu_available recorded_data
  then comprehension (fun d => option_map f (first_gpu d)) recorded_data
  else [].

Definition gpu_load : list sample -> list Q :=
  gpu_series (fun g => default0 (load g)).

Definition gpu_temp : list sample -> list Q :=
  gpu_series (fun g => Py.or0 (temperature g)).

Definition gpu_memory : list sample -> list Q :=
  gpu_series (fun g => default0 (memory_percent g)).

(** Computed by [generate_report] and not used afterwards. *)
Definition cpu_temp_data (recorded_data : list sample) : list Q :=
  comprehension (fun d => option_map (fun c => Py.or0 (cpu_temperature c)) (cpu d))
    recorded_data.

(** The sections of the report, named after what they show. *)
Inductive section_id : Type :=
| CpuMemory
| Gpu
| Network
| DiskIO
| DiskPartitions.

(** The flowables appended to [story]; spacers and table styles are layout
    and left out, charts and tables carry the data they are built from. *)
Inductive flowable : Type :=
| Title
| InfoTable (start_time end_time : string) (nsamples : nat) (sys : option system_info)
| Heading (s : section_id)
| LineChart (s : section_id) (data_series : list (list Q))
| StatsTable (s : section_id) (rows : list stats)
| BarChart (values : list Q)
| PartitionTable (parts : list partition).

Definition stats_rows (series : list (list Q)) : result (list stats) :=
  fold_right
    (fun l acc =>
       match _calculate_statistics l, acc with
       | Ok s, Ok ss => Ok (s :: ss)
       | Raise e, _ => Raise e
       | _, Raise e => Raise e
       end)
    (Ok []) series.

(** A section made of a heading, a line chart of the series and the table of
    their statistics, one row per series in the order of the chart. *)
Definition chart_section (s : section_id) (series : list (list Q))
  : result (list flowable) :=
  match stats_rows series with
  | Raise e => Raise e
  | Ok ss => Ok [Heading s; LineChart s series; StatsTable s ss]
  end.

Definition partition_section (recorded_data : list sample) : list flowable :=
  match last (map Some recorded_data) None with
  | None => []
  | Some d =>
      match disk d with
      | None => []
      | Some di =>
          Heading DiskPartitions ::
          match partitions di with
          | [] => []
          | ps => [BarChart (map part_percent ps); PartitionTable ps]
          end
      end
  end.

Definition app_result {A} (a b : result (list A)) : result (list A) :=
  match a, b with
  | Ok x, Ok y => Ok (x ++ y)
  | Raise e, _ => Raise e
  | _, Raise e => Raise e
  end.

(** The body of [generate_report] up to the call of [doc.build]: the
    story it has appended. *)
Definition build_story (recorded_data : list sample) (start_time end_time : string)
  : result (list flowable) :=
  let info :=
    [Title;
     InfoTable start_time end_time (List.length recorded_data)
       (match recorded_data with
        | d0 :: _ => system d0
        | [] => None
        end)] in
  let cpu_mem :=
    chart_section CpuMemory
      [cpu_data recorded_data; memory_data recorded_data] in
  let gpu_part :=
    match gpu_load recorded_data with
    | [] => Ok []
    | _ :: _ =>
        chart_section Gpu
          [gpu_load recorded_data; gpu_memory recorded_data; gpu_temp recorded_data]
    end in
  let net :=
    chart_section Network
      [network_sent recorded_data; network_recv recorded_data] in
  let dio :=
    chart_section DiskIO
      [disk_read recorded_data; disk_write recorded_data] in
  app_result (Ok info)
    (app_result cpu_mem
       (app_result gpu_part
          (app_result net
             (app_result dio (Ok (partition_section recorded_data)))))).

(** The flowables of the GPU section when [build_story] returns. *)
Definition gpu_part (rd : list sample) : list flowable :=
  match gpu_load rd with
  | [] => []
  | _ :: _ =>
      [Heading Gpu;
       LineChart Gpu [gpu_load rd; gpu_memory rd; gpu_temp rd];
       StatsTable Gpu (map statistics [gpu_load rd; gpu_memory rd; gpu_temp rd])]
  end.

(** [generate_report]: [doc_build] is the external renderer [doc.build];
    the result stands for the file written at [output_path]. *)
Definition generate_report (doc_build : list flowable -> result unit)
    (recorded_data : list sample) (start_time end_time : string)
  : result (list flowable) :=
  match build_story recorded_data start_time end_time with
  | Raise e => Raise e
  | Ok story =>
      match doc_build story with
      | Raise e => Raise e
      | Ok _ => Ok story
      end
  end.

End PDFReportGenerator.

(** ** [app.py]: the recording session and the report request *)

Module App.
Import Monitor.

Definition RECORDING_DURATION : Q := 300.

(** The module-level globals. [recording_thread] holds the number of the
    last worker thread started. *)
Record globals : Type := {
  monitor : SystemMonitor;
  recording : bool;
  recorded_data : list sample;
  recording_start_time : option Q;
  recording_thread : option nat
}.

Definition set_recording (b : bool) (g : globals) : globals :=
  {| monitor := monitor g;
     recording := b;
     recorded_data := recorded_data g;
     recording_start_time := recording_start_time g;
     recording_thread := recording_thread g |}.

(** The JSON bodies the routes return, with the HTTP code where the route
    sets one. *)
Inductive response : Type :=
| already_recording
| started (start_time : Q) (duration : Q)
| not_recording
| stopped (samples : nat)
| error (msg : string) (code : Z)
| success (report : list PDFReportGenerator.flowable) (samples : nat).

Definition str (e : exn) : string :=
  match e with
  | ZeroDivisionError => "division by zero"
  | ProviderError msg => msg
  end.

(** One pass of the [try] block of the worker: a sample is appended, or the
    exception is printed and the pass appends nothing.  The monitor keeps
    whatever the call did to it. *)
Definition worker_body (GPU_AVAILABLE : bool) (os : os_reading) (g : globals) : globals :=
  match get_all_resources GPU_AVAILABLE os (monitor g) with
  | (Ok data, m) =>
      {| monitor := m;
         recording := recording g;
         recorded_data := recorded_data g ++ [data];
         recording_start_time := recording_start_time g;
         recording_thread := recording_thread g |}
  | (Raise _, m) =>
      {| monitor := m;
         recording := recording g;
         recorded_data := recorded_data g;
         recording_start_time := recording_start_time g;
         recording_thread := recording_thread g |}
  end.

(** What happens during one pass of the loop: the OS readings of the
    sample, the time the sample takes and the time [time.sleep(1)] takes. *)
Record tick : Type := {
  tick_os : os_reading;
  tick_busy : Q;
  tick_sleep : Q
}.

(** A pass takes no negative time and [time.sleep(1)] suspends the thread
    for at least one second of the clock the loop reads. *)
Definition tick_ok (t : tick) : bool :=
  Qle_bool 0 (tick_busy t) && Qle_bool 1 (tick_sleep t).

(** The [while] loop of [recording_worker] and the assignment after it,
    run on its own (no request is served meanwhile).  [now] is the reading
    of [time.time()] at the loop test; the schedule [ticks] is consumed one
    pass at a time and [None] means it ended before the loop did. *)
Fixpoint recording_worker_loop (GPU_AVAILABLE : bool) (start : Q) (ticks : list tick)
    (now : Q) (g : globals) : option (globals * Q) :=
  if recording g && (if Qlt_le_dec (now - start) RECORDING_DURATION then true else false)
  then
    match ticks with
    | [] => None
    | t :: ts =>
        recording_worker_loop GPU_AVAILABLE start ts
          (now + tick_busy t + tick_sleep t)
          (worker_body GPU_AVAILABLE (tick_os t) g)
    end
  else Some (set_recording false g, now).

(** [recording_worker]: [start] is the reading of [start = time.time()]
    and [now] the reading at the first loop test. *)
Definition recording_worker (GPU_AVAILABLE : bool) (ticks : list tick)
    (start now : Q) (g : globals) : option (globals * Q) :=
  recording_worker_loop GPU_AVAILABLE start ticks now g.

(** The worker's run in closed form: the clock at the loop test that
    follows [k] passes, and the globals after [k] passes. *)
Definition clock_after (ticks : list tick) (now : Q) (k : nat) : Q :=
  fold_left (fun c t => c + tick_busy t + tick_sleep t) (firstn k ticks) now.

Definition passes (GPU_AVAILABLE : bool) (ticks : list tick) (g : globals) (k : nat)
  : globals :=
  fold_left (fun g t => worker_body GPU_AVAILABLE (tick_os t) g) (firstn k ticks) g.

(** [start_recording]: [now] is [datetime.now()]. *)
Definition start_recording (now : Q) (g : globals) : response * globals :=
  if recording g then (already_recording, g)
  else
    (started now RECORDING_DURATION,
     {| monitor := monitor g;
        recording := true;
        recorded_data := [];
        recording_start_time := Some now;
        recording_thread :=
          Some (match recording_thread g with Some n => S n | None => O end) |}).

Definition stop_recording (g : globals) : response * globals :=
  if negb (recording g) then (not_recording, g)
  else (stopped (List.length (recorded_data g)), set_recording false g).

(** [generate_report]: the route.  No global is assigned. *)
Definition generate_report
    (doc_build : list PDFReportGenerator.flowable -> result unit) (g : globals)
  : response :=
  if (List.length (recorded_data g) <? 2)%nat
  then error "Not enough data to generate report" 400
  else
    match recorded_data g with
    | [] => error "list index out of range" 500
    | d0 :: _ =>
        let start_time := timestamp d0 in
        let end_time := timestamp (last (recorded_data g) d0) in
        match PDFReportGenerator.generate_report doc_build (recorded_data g)
                start_time end_time with
        | Ok report => success report (List.length (recorded_data g))
        | Raise e => error (str e) 500
        end
    end.

End App.

(** ** Concrete readings used in the examples below *)

Module Scenario.
Import Monitor.
Local Open Scope string_scope.

Definition disk_counters (r w : Z) : psutil.sdiskio :=
  {| psutil.read_bytes := r; psutil.write_bytes := w |}.

Definition net_counters (s r : Z) : psutil.snetio :=
  {| psutil.bytes_sent := s; psutil.bytes_recv := r;
     psutil.packets_sent := 0; psutil.packets_recv := 0 |}.

(** A monitor whose last readings, taken at time 0, are 4 MiB read from
    disk and 2 KiB sent on the network. *)
Definition monitor_at_0 : SystemMonitor :=
  init (net_counters 2048 0) (disk_counters 4194304 0) 0.

(** A monitor with all counters at zero, last read at time 5. *)
Definition monitor_at_5 : SystemMonitor :=
  init (net_counters 0 0) (disk_counters 0 0) 5.

(** Samples as [get_all_resources] builds them, differing in the GPU part. *)
Definition sample_with (g : gpu_info) : sample :=
  {| timestamp := "2024-01-01 10:00:00";
     timestamp_ms := 1704103200000;
     system := Some {| platform := "Linux"; platform_release := "6.1";
                       hostname := "host"; processor := "x86_64";
                       uptime_seconds := 3600 |};
     cpu := Some {| cpu_percent := 10; percent_per_core := [10];
                    frequency_current := 2400; frequency_max := 3600;
                    cores_physical := 1; cores_logical := 1;
                    cpu_temperature := None |};
     gpu := Some g;
     memory := Some {| mem_total := 1024; mem_available := 512; mem_used := 512;
                       mem_percent := 50; swap_total := 0; swap_used := 0;
                       swap_percent := 0 |};
     disk := Some {| partitions := [];
                     io := {| io_read_bytes := 0; io_write_bytes := 0;
                              read_speed := 0; write_speed := 0 |} |};
     network := Some {| net_bytes_sent := 0; net_bytes_recv := 0;
                        net_packets_sent := 0; net_packets_recv := 0;
                        bytes_sent_speed := 0; bytes_recv_speed := 0;
                        bytes_sent_speed_mb := 0; bytes_recv_speed_mb := 0;
                        interfaces := [] |} |}.

Definition entry (l m : Q) (t : option Q) : gpu_entry :=
  {| gpu_id := 0; gpu_name := "GPU 0";
     load := Some l;
     memory_total := 8192; memory_used := 4096; memory_free := 4096;
     memory_percent := Some m;
     temperature := t |}.

Definition one_gpu (l m : Q) (t : option Q) : gpu_info :=
  {| available := true; gpus := [entry l m t] |}.

(** Two samples with a GPU; the second has no temperature reading. *)
Definition temperature_lost : list sample :=
  [sample_with (one_gpu 30 40 (Some 50)); sample_with (one_gpu 30 40 None)].

(** The GPU query fails for the first sample and succeeds afterwards. *)
Definition gpu_late : list sample :=
  [sample_with no_gpu; sample_with (one_gpu 30 40 (Some 50));
   sample_with (one_gpu 50 40 (Some 60))].

(** The GPU library is present and reports no device. *)
Definition gpu_library_without_device : list sample :=
  [sample_with {| available := true; gpus := [] |};
   sample_with {| available := true; gpus := [] |}].

Definition renderer_ok (story : list PDFReportGenerator.flowable) : result unit :=
  Ok tt.

(** The globals after a session that recorded [rd]. *)
Definition session (active : bool) (rd : list sample) : App.globals :=
  {| App.monitor := monitor_at_0;
     App.recording := active;
     App.recorded_data := rd;
     App.recording_start_time := Some 0;
     App.recording_thread := Some O |}.

(** One pass of the worker on a quiet machine: the sample is immediate and
    the sleep lasts exactly one second. *)
Definition quiet_reading : os_reading :=
  {| os_timestamp := "2024-01-01 10:00:00";
     os_timestamp_ms := 1704103200000;
     os_system := Ok {| platform := "Linux"; platform_release := "6.1";
                        hostname := "host"; processor := "x86_64";
                        uptime_seconds := 3600 |};
     os_cpu := Ok {| cpu_percent := 10; percent_per_core := [10];
                     frequency_current := 2400; frequency_max := 3600;
                     cores_physical := 1; cores_logical := 1;
                     cpu_temperature := None |};
     os_getGPUs := Ok [];
     os_memory := Ok {| mem_total := 1024; mem_available := 512; mem_used := 512;
                        mem_percent := 50; swap_total := 0; swap_used := 0;
                        swap_percent := 0 |};
     os_disk_partitions := Ok [];
     os_disk_time := 1;
     os_disk_io := Ok (disk_counters 4194304 0);
     os_net_time := 1;
     os_net_io := Ok (net_counters 2048 0);
     os_net_if_addrs := Ok [];
     os_net_if_stats := Ok [] |}.

Definition quiet_tick : App.tick :=
  {| App.tick_os := quiet_reading; App.tick_busy := 0; App.tick_sleep := 1 |}.

End Scenario.

(** ** Shapes of the statements about reported rates *)

Module RateShape.
Import Monitor.

(** [v] is the value reported for a counter pair over a positive elapsed
    time: the quotient, scaled, rounded to two places. *)
Definition rounded_rate (v scale td : Q) (cur last : Z) : Prop :=
  v = Py.round (inject_Z (cur - last) / td / scale) 2 /\
  Qabs (v - inject_Z (cur - last) / td / scale) <= 1 # 200 /\
  ((last <= cur)%Z -> 0 <= v).

(** [v] is reported for a counter that went backwards: the rounded
    quotient, which is never positive and is at most [-0.01] as soon as
    the scaled quotient is below [-0.005]. *)
Definition backwards_rate (v scale td : Q) (cur last : Z) : Prop :=
  v = Py.round (inject_Z (cur - last) / td / scale) 2 /\
  v <= 0 /\
  ((1 # 200) * scale * td < inject_Z (last - cur) -> v <= -(1 # 100)).

End RateShape.

(** ** The exclusion policy as the specification words it *)

Module Policy.
Import Monitor PDFReportGenerator.

(** The GPU temperature series if a sample without a temperature reading
    were left out of it, as the specification asks. *)
Definition gpu_temp_excluding_absent (recorded_data : list sample) : list Q :=
  if first_gpu_available recorded_data
  then comprehension
         (fun d => match first_gpu d with
                   | Some g => temperature g
                   | None => None
                   end) recorded_data
  else [].

(** The sample [d] with its CPU temperature reading replaced by [t]. *)
Definition with_cpu_temperature (t : option Q) (d : sample) : sample :=
  {| timestamp := timestamp d;
     timestamp_ms := timestamp_ms d;
     system := system d;
     cpu := option_map
              (fun c => {| cpu_percent := cpu_percent c;
                           percent_per_core := percent_per_core c;
                           frequency_current := frequency_current c;
                           frequency_max := frequency_max c;
                           cores_physical := cores_physical c;
                           cores_logical := cores_logical c;
                           cpu_temperature := t |}) (cpu d);
     gpu := gpu d;
     memory := memory d;
     disk := disk d;
     network := network d |}.

(** An optional metric with absence replaced by an explicit zero. *)
Definition zero_if_absent (v : option Q) : option Q :=
  match v with
  | Some x => Some x
  | None => Some 0
  end.

(** The sample [d] in which every GPU entry has its absent load, memory
    percentage and temperature replaced by an explicit zero. *)
Definition with_absent_gpu_metrics_as_zero (d : sample) : sample :=
  {| timestamp := timestamp d;
     timestamp_ms := timestamp_ms d;
     system := system d;
     cpu := cpu d;
     gpu := option_map
              (fun g =>
                 {| available := available g;
                    gpus := map (fun e =>
                                   {| gpu_id := gpu_id e;
                                      gpu_name := gpu_name e;
                                      load := zero_if_absent (load e);
                                      memory_total := memory_total e;
                                      memory_used := memory_used e;
                                      memory_free := memory_free e;
                                      memory_percent := zero_if_absent (memory_percent e);
                                      temperature := zero_if_absent (temperature e) |})
                                (gpus g) |}) (gpu d);
     memory := memory d;
     disk := disk d;
     network := network d |}.

(** Some sample of the buffer reports GPU availability. *)
Definition any_gpu_available (recorded_data : list sample) : bool :=
  existsb (fun d => match gpu d with
                    | Some g => available g
                    | None => false
                    end) recorded_data.

End Policy.

(** ** [monitor.py]: the CPU reading *)

Module Sensors.
Import Monitor.

(** [round((temp_kelvin / 10.0) - 273.15, 1)].  The exact difference is
    always a decimal tie, which the float of the code resolves by its
    binary error: the value below may be the other neighbour, 0.1 away
    from the code's.  Only whether a temperature is returned is stated
    about it. *)
Definition celsius (temp_kelvin : Z) : Q :=
  Py.round (inject_Z temp_kelvin / 10 - (27315 # 100)) 1.

(** The loop over [temps.items()]: the first sensor with entries gives
    the current value of its first entry. *)
Fixpoint first_current (temps : list (string * list Q)) : option Q :=
  match temps with
  | [] => None
  | (_, []) :: rest => first_current rest
  | (_, current :: _) :: _ => Some current
  end.

(** [_get_cpu_temperature]: [WMI_AVAILABLE] is the import flag,
    [thermal_zones] the outcome of the WMI query (the [CurrentTemperature]
    of each zone) and [sensors] the outcome of
    [psutil.sensors_temperatures()], a dictionary in iteration order.
    Both [try] blocks swallow every exception. *)
Definition _get_cpu_temperature (WMI_AVAILABLE : bool)
    (thermal_zones : result (list Z)) (sensors : result (list (string * list Q)))
  : option Q :=
  match
    (if WMI_AVAILABLE then
       match thermal_zones with
       | Ok (temp_kelvin :: _) => Some (celsius temp_kelvin)
       | Ok [] => None
       | Raise _ => None
       end
     else None)
  with
  | Some t => Some t
  | None =>
      match sensors with
      | Ok temps => first_current temps
      | Raise _ => None
      end
  end.

(** [psutil.cpu_freq()]. *)
Record scpufreq : Type := {
  current : Q;
  fmax : Q
}.

(** [get_cpu_info]: [cpu_count] is [psutil.cpu_count], a function of its
    [logical] argument, which defaults to [True]. *)
Definition get_cpu_info (percent : Q) (per_core : list Q) (cpu_freq : option scpufreq)
    (cpu_count : bool -> Z) (WMI_AVAILABLE : bool)
    (thermal_zones : result (list Z)) (sensors : result (list (string * list Q)))
  : cpu_info :=
  {| cpu_percent := percent;
     percent_per_core := per_core;
     frequency_current := match cpu_freq with Some f => current f | None => 0 end;
     frequency_max := match cpu_freq with Some f => fmax f | None => 0 end;
     cores_physical := cpu_count true;
     cores_logical := cpu_count true;
     cpu_temperature := _get_cpu_temperature WMI_AVAILABLE thermal_zones sensors |}.

End Sensors.

(** ** [pdf_generator.py]: the lines of a chart and the report font *)

Module Charts.
Local Open Scope string_scope.

Definition default_colors : list string :=
  ["#3b82f6"; "#ef4444"; "#22c55e"; "#f59e0b"; "#8b5cf6"].

(** One [ax.plot] call. *)
Record line : Type := {
  line_data : list Q;
  line_label : string;
  line_color : string
}.

Inductive plot_outcome : Type :=
| Plotted (lines : list line)
| ModuloByZero
| IndexError.

(** The loop over [enumerate(zip(data_series, labels))], from index [i]. *)
Fixpoint plot_from (i : nat) (pairs : list (list Q * string)) (colors_list : list string)
  : plot_outcome :=
  match pairs with
  | [] => Plotted []
  | (data, label) :: rest =>
      match List.length colors_list with
      | O => ModuloByZero
      | S _ =>
          match nth_error colors_list (i mod List.length colors_list) with
          | None => IndexError
          | Some color =>
              match plot_from (S i) rest colors_list with
              | Plotted ls =>
                  Plotted ({| line_data := data; line_label := label;
                              line_color := color |} :: ls)
              | other => other
              end
          end
      end
  end.

(** The lines [_create_line_chart] plots; the rest of the method only
    decorates and saves the figure. *)
Definition _create_line_chart (data_series : list (list Q)) (labels : list string)
    (colors_list : option (list string)) : plot_outcome :=
  plot_from 0 (combine data_series labels)
    (match colors_list with
     | None => default_colors
     | Some c => c
     end).

(** [needle in hay] on strings. *)
Fixpoint contains (needle hay : string) : bool :=
  if String.prefix needle hay then true
  else
    match hay with
    | EmptyString => false
    | String _ rest => contains needle rest
    end.

Definition font_paths : list string :=
  ["C:/Windows/Fonts/malgun.ttf";
   "C:/Windows/Fonts/malgunbd.ttf";
   "C:/Windows/Fonts/NanumGothic.ttf"].

(** The loop of [_register_fonts] from the current [font_name]:
    [path_exists] is [os.path.exists] and [registerFont name path] the
    outcome of building and registering the font. *)
Fixpoint register_from (paths : list string) (path_exists : string -> bool)
    (registerFont : string -> string -> result unit) (font_name : string) : string :=
  match paths with
  | [] => font_name
  | font_path :: rest =>
      if path_exists font_path then
        if contains "malgun" font_path then
          match registerFont "MalgunGothic" font_path with
          | Ok _ => "MalgunGothic"
          | Raise _ => register_from rest path_exists registerFont font_name
          end
        else if contains "Nanum" font_path then
          match registerFont "NanumGothic" font_path with
          | Ok _ => "NanumGothic"
          | Raise _ => register_from rest path_exists registerFont font_name
          end
        else font_name
      else register_from rest path_exists registerFont font_name
  end.

(** [_register_fonts]: the font name it leaves in [self.font_name]. *)
Definition _register_fonts (path_exists : string -> bool)
    (registerFont : string -> string -> result unit) : string :=
  register_from font_paths path_exists registerFont "Helvetica".

End Charts.

(** ** [app.py]: the live reading and the status route *)

Module Live.
Import Monitor App.

(** [int(x)]: truncation towards zero. *)
Definition py_int (x : Q) : Z := Z.quot (Qnum x) (Zpos (Qden x)).

(** The JSON body of [/api/resources]: the sample and the keys added to
    it; the last two are only set while recording. *)
Record live_reading : Type := {
  live_data : sample;
  live_recording : bool;
  recorded_count : nat;
  recording_duration : Q;
  recording_elapsed : option Z;
  recording_remaining : option Z
}.

Definition with_monitor (m : SystemMonitor) (g : globals) : globals :=
  {| monitor := m;
     recording := recording g;
     recorded_data := recorded_data g;
     recording_start_time := recording_start_time g;
     recording_thread := recording_thread g |}.

(** [get_resources]: [now] is [datetime.now()]; the answer is the body or
    the error message with code 500. *)
Definition get_resources (GPU_AVAILABLE : bool) (os : os_reading) (now : Q) (g : globals)
  : (live_reading + string * Z) * globals :=
  match get_all_resources GPU_AVAILABLE os (monitor g) with
  | (Ok data, m) =>
      let timing :=
        if recording g then
          match recording_start_time g with
          | Some started_at =>
              let elapsed := now - started_at in
              (Some (py_int elapsed),
               Some (Z.max 0 (py_int RECORDING_DURATION - py_int elapsed)))
          | None => (None, None)
          end
        else (None, None) in
      (inl {| live_data := data;
              live_recording := recording g;
              recorded_count := List.length (recorded_data g);
              recording_duration := RECORDING_DURATION;
              recording_elapsed := fst timing;
              recording_remaining := snd timing |},
       with_monitor m g)
  | (Raise e, m) => (inr (str e, 500%Z), with_monitor m g)
  end.

(** The JSON body of [/api/recording-status]. *)
Record status : Type := {
  status_recording : bool;
  status_samples : nat;
  status_start_time : option Q
}.

Definition recording_status (g : globals) : status :=
  {| status_recording := recording g;
     status_samples := List.length (recorded_data g);
     status_start_time := recording_start_time g |}.

End Live.

(** ** Samples with every key *)

Module Shape.
Import Monitor.

(** The sample has the six top-level keys the report looks for. *)
Definition has_all_keys (d : sample) : bool :=
  match system d, cpu d, gpu d, memory d, disk d, network d with
  | Some _, Some _, Some _, Some _, Some _, Some _ => true
  | _, _, _, _, _, _ => false
  end.

(** Every OS reading of a sample that can fail succeeded: the system,
    CPU and memory gauges, the partition listing and its loop, the disk
    and the network counters and the two interface calls. *)
Definition readings_succeed (os : os_reading) : bool :=
  match os_system os, os_cpu os, os_memory os,
        read_partitions (os_disk_partitions os), os_disk_io os,
        os_net_io os, os_net_if_addrs os, os_net_if_stats os with
  | Ok _, Ok _, Ok _, Ok _, Ok _, Ok _, Ok _, Ok _ => true
  | _, _, _, _, _, _, _, _ => false
  end.

(** The readings of a sample that precede the network counters, in the
    order of the calls: the first exception raised, or else the disk
    counters read. *)
Definition gauges_and_disk (os : os_reading) : result psutil.sdiskio :=
  match os_system os with
  | Raise e => Raise e
  | Ok _ =>
      match os_cpu os with
      | Raise e => Raise e
      | Ok _ =>
          match os_memory os with
          | Raise e => Raise e
          | Ok _ =>
              match read_partitions (os_disk_partitions os) with
              | Raise e => Raise e
              | Ok _ => os_disk_io os
              end
          end
      end
  end.

End Shape.

(** ** Concrete inputs for the further properties *)

Module Cases.
Import Monitor.
Local Open Scope string_scope.

Definition root_partition : sdiskpart :=
  {| device := "/dev/sda1"; part_mountpoint := "/"; fstype := "ext4" |}.

Definition optical_drive : sdiskpart :=
  {| device := "/dev/sr0"; part_mountpoint := "/media"; fstype := "iso9660" |}.

(** 2 GiB in total, half of it used. *)
Definition half_full : sdiskusage :=
  {| total := 2147483648; used := 1073741824; free := 1073741824; percent := 50 |}.

Definition eth0_addrs : list snicaddr :=
  [{| family_name := "AF_PACKET"; address := "00:11:22:33:44:55" |};
   {| family_name := "AF_INET"; address := "192.168.0.2" |};
   {| family_name := "AF_INET6"; address := "fe80::1" |}].

(** A reading whose interface addresses cannot be read, two seconds after
    the monitor of the examples was created. *)
Definition interfaces_fail : os_reading :=
  {| os_timestamp := os_timestamp Scenario.quiet_reading;
     os_timestamp_ms := os_timestamp_ms Scenario.quiet_reading;
     os_system := os_system Scenario.quiet_reading;
     os_cpu := os_cpu Scenario.quiet_reading;
     os_getGPUs := os_getGPUs Scenario.quiet_reading;
     os_memory := os_memory Scenario.quiet_reading;
     os_disk_partitions := Ok [];
     os_disk_time := 2;
     os_disk_io := Ok (Scenario.disk_counters 5242880 0);
     os_net_time := 2;
     os_net_io := Ok (Scenario.net_counters 4096 0);
     os_net_if_addrs := Raise (ProviderError "net_if_addrs failed");
     os_net_if_stats := Ok [] |}.

Definition up_1000 : snicstats := {| isup := true; speed := 1000 |}.
Definition down_0 : snicstats := {| isup := false; speed := 0 |}.

End Cases.

(** * Properties *)

(** ** Rounding and division *)

Module PyFacts.

Lemma truediv_nonzero a b : ~ b == 0 -> Py.truediv a b = Ok (a / b).
Proof.
  intros Hb. unfold Py.truediv.
  destruct (Qeq_bool b 0) eqn:E; [|reflexivity].
  apply Qeq_bool_iff in E. contradiction.
Qed.

Lemma rhe_bounds x :
  (2 * Zpos (Qden x) * Py.round_half_even x - 2 * Qnum x <= Zpos (Qden x))%Z /\
  (2 * Qnum x - 2 * Zpos (Qden x) * Py.round_half_even x <= Zpos (Qden x))%Z.
Proof.
  unfold Py.round_half_even.
  destruct x as [n d]; cbn [Qnum Qden]; cbv zeta.
  pose proof (Z.div_mod n (Zpos d) ltac:(lia)) as Hdm.
  pose proof (Z.mod_pos_bound n (Zpos d) ltac:(lia)) as Hr.
  set (f := (n / Zpos d)%Z) in *. set (r := (n mod Zpos d)%Z) in *. clearbody f r.
  assert (HD : (0 < Zpos d)%Z) by lia. generalize dependent (Zpos d). intros D Hdm Hr HD.
  destruct (Z.compare_spec (2 * r) D) as [C|C|C].
  - destruct (Z.even f); lia.
  - lia.
  - lia.
Qed.

Lemma rhe_nonneg x : 0 <= x -> (0 <= Py.round_half_even x)%Z.
Proof.
  intros H. pose proof (rhe_bounds x) as [B1 B2].
  unfold Qle in H; cbn in H. rewrite Z.mul_1_r in H.
  destruct (Z_lt_le_dec (Py.round_half_even x) 0); [|assumption].
  nia.
Qed.

Lemma rhe_nonpos x : x <= 0 -> (Py.round_half_even x <= 0)%Z.
Proof.
  intros H. pose proof (rhe_bounds x) as [B1 B2].
  unfold Qle in H; cbn in H. rewrite Z.mul_1_r in H.
  destruct (Z_lt_le_dec 0 (Py.round_half_even x)); [|assumption].
  nia.
Qed.

Lemma round_nonneg x n : 0 <= x -> 0 <= Py.round x n.
Proof.
  intros H. unfold Py.round. destruct n.
  - change 0 with (inject_Z 0). rewrite <- Zle_Qle. now apply rhe_nonneg.
  - unfold Qle; cbn [Qnum Qden]. rewrite Z.mul_1_r, Z.mul_0_l.
    apply rhe_nonneg. apply Qmult_le_0_compat; [assumption|]. now unfold Qle.
Qed.

Lemma round_nonpos x n : x <= 0 -> Py.round x n <= 0.
Proof.
  intros H. unfold Py.round. destruct n.
  - change 0 with (inject_Z 0). rewrite <- Zle_Qle. now apply rhe_nonpos.
  - unfold Qle; cbn [Qnum Qden]. rewrite Z.mul_1_r, Z.mul_0_l.
    apply rhe_nonpos.
    set (p := inject_Z _). assert (0 < p) by (now unfold Qlt).
    nra.
Qed.

Lemma round_zero x n : x == 0 -> Py.round x n == 0.
Proof.
  intros H. apply Qle_antisym.
  - apply round_nonpos. rewrite H. apply Qle_refl.
  - apply round_nonneg. rewrite H. apply Qle_refl.
Qed.

Lemma rhe_error y : Qabs (inject_Z (Py.round_half_even y) - y) <= 1 # 2.
Proof.
  pose proof (rhe_bounds y) as [B1 B2].
  set (k := Py.round_half_even y) in *. clearbody k.
  destruct y as [a b]. cbn [Qnum Qden] in *.
  apply Qabs_Qle_condition.
  unfold Qle, Qminus, Qplus, Qopp, inject_Z; cbn [Qnum Qden].
  split; lia.
Qed.

Lemma round2_error x : Qabs (Py.round x 2 - x) <= 1 # 200.
Proof.
  unfold Py.round. cbn [Pos.of_nat Pos.pow Pos.iter Pos.mul Pos.succ].
  change (Pos.pow 10 2) with 100%positive.
  pose proof (rhe_error (x * inject_Z 100)) as E.
  set (k := Py.round_half_even _) in *. clearbody k.
  apply Qabs_Qle_condition in E. destruct E as [E1 E2].
  apply Qabs_Qle_condition.
  assert (Hk : k # 100 == inject_Z k * (1 # 100)).
  { unfold Qeq, Qmult, inject_Z; cbn. lia. }
  rewrite Hk. change (inject_Z 100) with 100 in *.
  split; lra.
Qed.

Lemma round2_below x : x < -(1 # 200) -> Py.round x 2 <= -(1 # 100).
Proof.
  intros Hx. unfold Py.round. change (Pos.pow 10 (Pos.of_nat 2)) with 100%positive.
  cbv iota.
  pose proof (rhe_bounds (x * inject_Z 100)) as [B1 B2].
  assert (Hy : x * inject_Z 100 < -(1 # 2)) by (change (inject_Z 100) with 100; lra).
  set (y := x * inject_Z 100) in *. clearbody y.
  set (k := Py.round_half_even y) in *. clearbody k.
  destruct y as [a b]. cbn [Qnum Qden] in *.
  unfold Qlt in Hy; cbn in Hy.
  unfold Qle; cbn.
  nia.
Qed.

End PyFacts.

(** ** The rate computation of [get_disk_info] and [get_network_info] *)

Module MonitorFacts.
Import Monitor PyFacts.

Lemma MB_nonzero : ~ MB == 0.
Proof. now unfold MB, Qeq. Qed.

Lemma KB_nonzero : ~ KB == 0.
Proof. now unfold KB, Qeq. Qed.

Lemma MB_pos : 0 < MB.
Proof. now unfold MB, Qlt. Qed.

Lemma KB_pos : 0 < KB.
Proof. now unfold KB, Qlt. Qed.

(** The guard [time_diff > 0] protects both divisions. *)
Lemma speeds_eq td c1 l1 c2 l2 :
  speeds td c1 l1 c2 l2 = Ok (rate td c1 l1, rate td c2 l2).
Proof.
  unfold speeds, rate. destruct (Qlt_le_dec 0 td) as [Hpos|Hle]; [|reflexivity].
  assert (Hnz : ~ td == 0) by (intro E; rewrite E in Hpos; now apply Qlt_irrefl in Hpos).
  now rewrite !truediv_nonzero.
Qed.

Lemma rate_pos td cur last : 0 < td -> rate td cur last = inject_Z (cur - last) / td.
Proof.
  intros H. unfold rate. destruct (Qlt_le_dec 0 td) as [_|Hle]; [reflexivity|].
  exfalso. apply (Qlt_irrefl 0). eapply Qlt_le_trans; eassumption.
Qed.

Lemma rate_nonpos td cur last : td <= 0 -> rate td cur last = 0.
Proof.
  intros H. unfold rate. destruct (Qlt_le_dec 0 td) as [Hpos|_]; [|reflexivity].
  exfalso. apply (Qlt_irrefl 0). eapply Qlt_le_trans; eassumption.
Qed.

(** [get_disk_info] always returns, with both speeds in closed form, and
    replaces [last_disk_io] only. *)
Lemma get_disk_info_eq parts t cur self :
  get_disk_info parts t cur self =
  (Ok {| partitions := parts;
         io := {| io_read_bytes := psutil.read_bytes cur;
                  io_write_bytes := psutil.write_bytes cur;
                  read_speed :=
                    reported MB (t - last_time self)
                      (psutil.read_bytes cur) (psutil.read_bytes (last_disk_io self));
                  write_speed :=
                    reported MB (t - last_time self)
                      (psutil.write_bytes cur) (psutil.write_bytes (last_disk_io self)) |} |},
   {| last_net_io := last_net_io self;
      last_disk_io := cur;
      last_time := last_time self |}).
Proof.
  unfold get_disk_info, bind, getattr, lift, ret, set_last_disk_io, reported.
  rewrite speeds_eq. now rewrite !(truediv_nonzero _ MB MB_nonzero).
Qed.

(** [get_network_info] always returns, with the four speeds in closed
    form, and replaces [last_net_io] and [last_time]. *)
Lemma get_network_info_eq ifaces t cur self :
  get_network_info ifaces t cur self =
  (Ok {| net_bytes_sent := psutil.bytes_sent cur;
         net_bytes_recv := psutil.bytes_recv cur;
         net_packets_sent := psutil.packets_sent cur;
         net_packets_recv := psutil.packets_recv cur;
         bytes_sent_speed :=
           reported KB (t - last_time self)
             (psutil.bytes_sent cur) (psutil.bytes_sent (last_net_io self));
         bytes_recv_speed :=
           reported KB (t - last_time self)
             (psutil.bytes_recv cur) (psutil.bytes_recv (last_net_io self));
         bytes_sent_speed_mb :=
           reported MB (t - last_time self)
             (psutil.bytes_sent cur) (psutil.bytes_sent (last_net_io self));
         bytes_recv_speed_mb :=
           reported MB (t - last_time self)
             (psutil.bytes_recv cur) (psutil.bytes_recv (last_net_io self));
         interfaces := ifaces |},
   {| last_net_io := cur;
      last_disk_io := last_disk_io self;
      last_time := t |}).
Proof.
  unfold get_network_info, bind, getattr, lift, ret, set_last_net_io, set_last_time,
    reported.
  rewrite speeds_eq.
  now rewrite !(truediv_nonzero _ MB MB_nonzero), !(truediv_nonzero _ KB KB_nonzero).
Qed.

(** Sign and size of a reported rate. *)
Lemma reported_zero scale td cur last : td <= 0 -> reported scale td cur last == 0.
Proof.
  intros H. unfold reported. rewrite rate_nonpos by assumption.
  apply round_zero. unfold Qdiv. ring.
Qed.

Lemma reported_nonneg scale td cur last :
  0 < scale -> (last <= cur)%Z -> 0 <= reported scale td cur last.
Proof.
  intros Hs Hc. unfold reported. apply round_nonneg.
  apply Qle_shift_div_l; [assumption|]. rewrite Qmult_0_l.
  unfold rate. destruct (Qlt_le_dec 0 td) as [Hpos|_]; [|apply Qle_refl].
  apply Qle_shift_div_l; [assumption|]. rewrite Qmult_0_l.
  change 0 with (inject_Z 0). rewrite <- Zle_Qle. lia.
Qed.

Lemma reported_nonpos scale td cur last :
  0 < scale -> (cur <= last)%Z -> reported scale td cur last <= 0.
Proof.
  intros Hs Hc. unfold reported. apply round_nonpos.
  apply Qle_shift_div_r; [assumption|]. rewrite Qmult_0_l.
  unfold rate. destruct (Qlt_le_dec 0 td) as [Hpos|_]; [|apply Qle_refl].
  apply Qle_shift_div_r; [assumption|]. rewrite Qmult_0_l.
  change 0 with (inject_Z 0). rewrite <- Zle_Qle. lia.
Qed.

Lemma reported_negative scale td cur last :
  0 < scale -> 0 < td ->
  (1 # 200) * scale * td < inject_Z (last - cur) ->
  reported scale td cur last <= -(1 # 100).
Proof.
  intros Hs Ht Hbig. unfold reported. apply round2_below.
  rewrite rate_pos by assumption.
  apply Qlt_shift_div_r; [assumption|].
  apply Qlt_shift_div_r; [assumption|].
  assert (E : inject_Z (cur - last) == - inject_Z (last - cur)).
  { rewrite <- inject_Z_opp. now replace (cur - last)%Z with (- (last - cur))%Z by lia. }
  rewrite E. lra.
Qed.

Lemma reported_close scale td cur last :
  Qabs (reported scale td cur last - rate td cur last / scale) <= 1 # 200.
Proof. unfold reported. apply round2_error. Qed.

(** The whole of [get_network_info] by outcome: a failing counter
    reading leaves [self] alone; failing interface calls come after the
    two assignments; otherwise it is [get_network_info] on the interface
    list collected. *)
Lemma get_network_info_os_eq t net_io_counters net_if_addrs net_if_stats self :
  get_network_info_os t net_io_counters net_if_addrs net_if_stats self =
  match net_io_counters with
  | Raise e => (Raise e, self)
  | Ok cur =>
      match net_if_addrs, net_if_stats with
      | Ok addrs, Ok stats =>
          get_network_info (collect_interfaces addrs stats) t cur self
      | Raise e, _ | Ok _, Raise e =>
          (Raise e,
           {| last_net_io := cur; last_disk_io := last_disk_io self; last_time := t |})
      end
  end.
Proof.
  destruct net_io_counters as [cur|e]; [|reflexivity].
  unfold get_network_info_os, get_network_info, bind, getattr, lift, ret,
    set_last_net_io, set_last_time.
  rewrite speeds_eq.
  destruct net_if_addrs as [addrs|e]; [|reflexivity].
  destruct net_if_stats as [stats|e]; reflexivity.
Qed.

Lemma get_disk_info_os_eq disk_partitions t disk_io_counters self :
  get_disk_info_os disk_partitions t disk_io_counters self =
  match read_partitions disk_partitions with
  | Raise e => (Raise e, self)
  | Ok parts =>
      match disk_io_counters with
      | Raise e => (Raise e, self)
      | Ok cur => get_disk_info parts t cur self
      end
  end.
Proof.
  unfold get_disk_info_os, bind, lift.
  destruct (read_partitions disk_partitions); [|reflexivity].
  destruct disk_io_counters; reflexivity.
Qed.

(** One full sample: the disk call runs before the network call, both
    measure from the [last_time] the sample started with, and the sample
    leaves the two readings and the time of the network call in [self]. *)
Lemma get_all_resources_rates GPU os self s c m parts dio nio addrs stats :
  os_system os = Ok s -> os_cpu os = Ok c -> os_memory os = Ok m ->
  read_partitions (os_disk_partitions os) = Ok parts ->
  os_disk_io os = Ok dio -> os_net_io os = Ok nio ->
  os_net_if_addrs os = Ok addrs -> os_net_if_stats os = Ok stats ->
  exists smp,
    get_all_resources GPU os self =
      (Ok smp,
       {| last_net_io := nio; last_disk_io := dio; last_time := os_net_time os |}) /\
    option_map (fun d => read_speed (io d)) (disk smp) =
      Some (reported MB (os_disk_time os - last_time self)
              (psutil.read_bytes dio) (psutil.read_bytes (last_disk_io self))) /\
    option_map bytes_sent_speed (network smp) =
      Some (reported KB (os_net_time os - last_time self)
              (psutil.bytes_sent nio) (psutil.bytes_sent (last_net_io self))).
Proof.
  intros Hs Hc Hm Hp Hd Hn Ha Hst. unfold get_all_resources, bind, lift, ret.
  rewrite Hs, Hc, Hm, get_disk_info_os_eq, Hp, Hd, get_disk_info_eq.
  rewrite get_network_info_os_eq, Hn, Ha, Hst, get_network_info_eq.
  eexists. split; [reflexivity|]. split; reflexivity.
Qed.

End MonitorFacts.

(** ** Claims about the rate calculator *)

Module Rates.
Import Monitor PyFacts MonitorFacts Scenario RateShape.

Lemma rounded_rate_reported scale td cur last :
  0 < scale -> 0 < td -> rounded_rate (reported scale td cur last) scale td cur last.
Proof.
  intros Hs Ht. unfold rounded_rate. repeat split.
  - unfold reported. now rewrite rate_pos.
  - rewrite <- (rate_pos td cur last Ht). apply reported_close.
  - intros Hc. now apply reported_nonneg.
Qed.

Lemma backwards_rate_reported scale td cur last :
  0 < scale -> 0 < td -> (cur < last)%Z ->
  backwards_rate (reported scale td cur last) scale td cur last.
Proof.
  intros Hs Ht Hc. unfold backwards_rate. repeat split.
  - unfold reported. now rewrite rate_pos.
  - apply reported_nonpos; [assumption|lia].
  - intros Hbig. now apply reported_negative.
Qed.

(** C1, as stated, fails: with the disk read counter going from 4 MiB back
    to 0 and the sent-bytes counter from 2 KiB back to 0 over 2 seconds,
    [get_disk_info] reports a read speed of -2 MB/s and
    [get_network_info] a send speed of -1 KB/s, not 0. *)
Lemma wraparound_reports_negative_rate :
  exists d n self1 self2,
    get_disk_info [] 2 (disk_counters 0 0) monitor_at_0 = (Ok d, self1) /\
    get_network_info [] 2 (net_counters 0 0) monitor_at_0 = (Ok n, self2) /\
    (psutil.read_bytes (disk_counters 0 0)
       < psutil.read_bytes (last_disk_io monitor_at_0))%Z /\
    (psutil.bytes_sent (net_counters 0 0)
       < psutil.bytes_sent (last_net_io monitor_at_0))%Z /\
    read_speed (io d) == -2 /\ ~ read_speed (io d) == 0 /\
    bytes_sent_speed n == -1 /\ ~ bytes_sent_speed n == 0.
Proof.
  do 4 eexists.
  split; [vm_compute; reflexivity|].
  split; [vm_compute; reflexivity|].
  cbn [read_speed io bytes_sent_speed].
  repeat split; try reflexivity; intro H; discriminate H.
Qed.

(** C1, amended: when a counter is smaller than at the previous reading
    and the elapsed time is positive, the reported rate is the rounded
    scaled quotient without any clamp: it is never positive, and it is
    negative (at most -0.01) whenever the scaled quotient is below -0.005. *)
Theorem wraparound_rate_not_clamped parts ifaces t cur_d cur_n self :
  0 < t - last_time self ->
  exists d n self1 self2,
    get_disk_info parts t cur_d self = (Ok d, self1) /\
    get_network_info ifaces t cur_n self = (Ok n, self2) /\
    ((psutil.read_bytes cur_d < psutil.read_bytes (last_disk_io self))%Z ->
     backwards_rate (read_speed (io d)) MB (t - last_time self)
       (psutil.read_bytes cur_d) (psutil.read_bytes (last_disk_io self))) /\
    ((psutil.write_bytes cur_d < psutil.write_bytes (last_disk_io self))%Z ->
     backwards_rate (write_speed (io d)) MB (t - last_time self)
       (psutil.write_bytes cur_d) (psutil.write_bytes (last_disk_io self))) /\
    ((psutil.bytes_sent cur_n < psutil.bytes_sent (last_net_io self))%Z ->
     backwards_rate (bytes_sent_speed n) KB (t - last_time self)
       (psutil.bytes_sent cur_n) (psutil.bytes_sent (last_net_io self)) /\
     backwards_rate (bytes_sent_speed_mb n) MB (t - last_time self)
       (psutil.bytes_sent cur_n) (psutil.bytes_sent (last_net_io self))) /\
    ((psutil.bytes_recv cur_n < psutil.bytes_recv (last_net_io self))%Z ->
     backwards_rate (bytes_recv_speed n) KB (t - last_time self)
       (psutil.bytes_recv cur_n) (psutil.bytes_recv (last_net_io self)) /\
     backwards_rate (bytes_recv_speed_mb n) MB (t - last_time self)
       (psutil.bytes_recv cur_n) (psutil.bytes_recv (last_net_io self))).
Proof.
  intros Ht. rewrite get_disk_info_eq, get_network_info_eq.
  do 4 eexists. split; [reflexivity|]. split; [reflexivity|].
  cbn [read_speed write_speed io bytes_sent_speed bytes_recv_speed
       bytes_sent_speed_mb bytes_recv_speed_mb].
  pose proof MB_pos. pose proof KB_pos.
  repeat split; intros; apply backwards_rate_reported; assumption.
Qed.

Lemma wraparound_rate_not_clamped_witness :
  0 < 2 - last_time monitor_at_0 /\
  exists d n self1 self2,
    get_disk_info [] 2 (disk_counters 0 0) monitor_at_0 = (Ok d, self1) /\
    get_network_info [] 2 (net_counters 0 0) monitor_at_0 = (Ok n, self2) /\
    ((psutil.read_bytes (disk_counters 0 0)
        < psutil.read_bytes (last_disk_io monitor_at_0))%Z ->
     backwards_rate (read_speed (io d)) MB (2 - last_time monitor_at_0)
       (psutil.read_bytes (disk_counters 0 0))
       (psutil.read_bytes (last_disk_io monitor_at_0))).
Proof.
  split; [reflexivity|].
  destruct (wraparound_rate_not_clamped [] [] 2 (disk_counters 0 0) (net_counters 0 0)
              monitor_at_0 eq_refl)
    as (d & n & s1 & s2 & Hd & Hn & Hr & _).
  exists d, n, s1, s2. split; [exact Hd|]. split; [exact Hn|exact Hr].
Defined.

(** C4, as stated, fails: the reported value is rounded to two places.
    With one byte sent over one second, [(cur - prev) / elapsed] is 1 B/s,
    the reported send speed is 0.0, and no unit scaling relates the two. *)
Lemma one_byte_per_second_reported_as_zero :
  exists n self',
    get_network_info [] 6 (net_counters 1 0) monitor_at_5 = (Ok n, self') /\
    0 < 6 - last_time monitor_at_5 /\
    bytes_sent_speed n == 0 /\
    ~ bytes_sent_speed n == inject_Z (1 - 0) / (6 - last_time monitor_at_5) / KB /\
    forall scale, ~ scale == 0 ->
      ~ bytes_sent_speed n == inject_Z (1 - 0) / (6 - last_time monitor_at_5) / scale.
Proof.
  do 2 eexists. split; [vm_compute; reflexivity|].
  cbn [bytes_sent_speed].
  split; [reflexivity|]. split; [reflexivity|]. split.
  - intro H. discriminate H.
  - intros scale Hs H.
    pose proof (Qmult_div_r (inject_Z (1 - 0) / (6 - last_time monitor_at_5)) scale Hs)
      as E.
    pose proof (Qmult_comp _ _ (Qeq_refl scale) _ _ H) as E1.
    assert (E0 : 0 == scale * (0 # 100)) by (unfold Qeq, Qmult; simpl; lia).
    pose proof (Qeq_trans _ _ _ E0 (Qeq_trans _ _ _ E1 E)) as E2.
    vm_compute in E2. discriminate E2.
Qed.

(** C4, amended: for a positive elapsed time every reported rate is
    [(cur - prev) / elapsed], scaled to MB/s or KB/s and rounded to two
    decimal places, hence within 0.005 of the scaled quotient; it is never
    negative when the current counter is at least the previous one. *)
Theorem rate_is_rounded_scaled_quotient parts ifaces t cur_d cur_n self :
  0 < t - last_time self ->
  exists d n self1 self2,
    get_disk_info parts t cur_d self = (Ok d, self1) /\
    get_network_info ifaces t cur_n self = (Ok n, self2) /\
    rounded_rate (read_speed (io d)) MB (t - last_time self)
      (psutil.read_bytes cur_d) (psutil.read_bytes (last_disk_io self)) /\
    rounded_rate (write_speed (io d)) MB (t - last_time self)
      (psutil.write_bytes cur_d) (psutil.write_bytes (last_disk_io self)) /\
    rounded_rate (bytes_sent_speed n) KB (t - last_time self)
      (psutil.bytes_sent cur_n) (psutil.bytes_sent (last_net_io self)) /\
    rounded_rate (bytes_recv_speed n) KB (t - last_time self)
      (psutil.bytes_recv cur_n) (psutil.bytes_recv (last_net_io self)) /\
    rounded_rate (bytes_sent_speed_mb n) MB (t - last_time self)
      (psutil.bytes_sent cur_n) (psutil.bytes_sent (last_net_io self)) /\
    rounded_rate (bytes_recv_speed_mb n) MB (t - last_time self)
      (psutil.bytes_recv cur_n) (psutil.bytes_recv (last_net_io self)).
Proof.
  intros Ht. rewrite get_disk_info_eq, get_network_info_eq.
  do 4 eexists. split; [reflexivity|]. split; [reflexivity|].
  cbn [read_speed write_speed io bytes_sent_speed bytes_recv_speed
       bytes_sent_speed_mb bytes_recv_speed_mb].
  pose proof MB_pos. pose proof KB_pos.
  repeat apply conj; apply rounded_rate_reported; assumption.
Qed.

Lemma rate_is_rounded_scaled_quotient_witness :
  0 < 6 - last_time monitor_at_5 /\
  exists d n self1 self2,
    get_disk_info [] 6 (disk_counters 3145728 0) monitor_at_5 = (Ok d, self1) /\
    get_network_info [] 6 (net_counters 1 0) monitor_at_5 = (Ok n, self2) /\
    rounded_rate (read_speed (io d)) MB (6 - last_time monitor_at_5)
      (psutil.read_bytes (disk_counters 3145728 0))
      (psutil.read_bytes (last_disk_io monitor_at_5)).
Proof.
  split; [reflexivity|].
  destruct (rate_is_rounded_scaled_quotient [] [] 6 (disk_counters 3145728 0)
              (net_counters 1 0) monitor_at_5 eq_refl)
    as (d & n & s1 & s2 & Hd & Hn & Hr & _).
  exists d, n, s1, s2. split; [exact Hd|]. split; [exact Hn|exact Hr].
Defined.

(** C7: if the elapsed time since the previous sample is zero or
    negative, both methods return normally (no division is attempted) and
    every reported disk and network rate is 0. *)
Theorem nonpositive_elapsed_reports_zero parts ifaces t cur_d cur_n self :
  t - last_time self <= 0 ->
  exists d n self1 self2,
    get_disk_info parts t cur_d self = (Ok d, self1) /\
    get_network_info ifaces t cur_n self = (Ok n, self2) /\
    read_speed (io d) == 0 /\ write_speed (io d) == 0 /\
    bytes_sent_speed n == 0 /\ bytes_recv_speed n == 0 /\
    bytes_sent_speed_mb n == 0 /\ bytes_recv_speed_mb n == 0.
Proof.
  intros Ht. rewrite get_disk_info_eq, get_network_info_eq.
  do 4 eexists. split; [reflexivity|]. split; [reflexivity|].
  cbn [read_speed write_speed io bytes_sent_speed bytes_recv_speed
       bytes_sent_speed_mb bytes_recv_speed_mb].
  repeat apply conj; apply reported_zero; assumption.
Qed.

Lemma nonpositive_elapsed_reports_zero_witness :
  3 - last_time monitor_at_5 <= 0 /\
  exists d n self1 self2,
    get_disk_info [] 3 (disk_counters 700 900) monitor_at_5 = (Ok d, self1) /\
    get_network_info [] 3 (net_counters 10 20) monitor_at_5 = (Ok n, self2) /\
    read_speed (io d) == 0 /\ write_speed (io d) == 0 /\
    bytes_sent_speed n == 0 /\ bytes_recv_speed n == 0 /\
    bytes_sent_speed_mb n == 0 /\ bytes_recv_speed_mb n == 0.
Proof.
  assert (H : 3 - last_time monitor_at_5 <= 0) by (vm_compute; discriminate).
  split; [exact H|].
  exact (nonpositive_elapsed_reports_zero [] [] 3 (disk_counters 700 900)
           (net_counters 10 20) monitor_at_5 H).
Defined.

(** C10: [get_disk_info] replaces [last_disk_io] and leaves [last_time]
    and [last_net_io] as they were; [get_network_info] replaces
    [last_net_io] and [last_time] and leaves [last_disk_io]; so after a
    [get_network_info] call at time [t], the next [get_disk_info] (at
    [t1]) and the next [get_network_info] (at [t2]) both measure their
    elapsed time from [t]. *)
Theorem only_network_call_advances_last_time parts ifaces t cur_d cur_n self :
  snd (get_disk_info parts t cur_d self) =
    {| last_net_io := last_net_io self;
       last_disk_io := cur_d;
       last_time := last_time self |} /\
  snd (get_network_info ifaces t cur_n self) =
    {| last_net_io := cur_n;
       last_disk_io := last_disk_io self;
       last_time := t |} /\
  forall parts' ifaces' t1 d1 t2 n2,
    exists d self1 n self2,
      get_disk_info parts' t1 d1 (snd (get_network_info ifaces t cur_n self))
        = (Ok d, self1) /\
      get_network_info ifaces' t2 n2 self1 = (Ok n, self2) /\
      read_speed (io d) =
        reported MB (t1 - t) (psutil.read_bytes d1)
          (psutil.read_bytes (last_disk_io self)) /\
      write_speed (io d) =
        reported MB (t1 - t) (psutil.write_bytes d1)
          (psutil.write_bytes (last_disk_io self)) /\
      bytes_sent_speed n =
        reported KB (t2 - t) (psutil.bytes_sent n2) (psutil.bytes_sent cur_n) /\
      bytes_recv_speed n =
        reported KB (t2 - t) (psutil.bytes_recv n2) (psutil.bytes_recv cur_n) /\
      last_time self1 = t /\ last_time self2 = t2.
Proof.
  rewrite get_disk_info_eq, get_network_info_eq. cbn [snd].
  split; [reflexivity|]. split; [reflexivity|].
  intros parts' ifaces' t1 d1 t2 n2.
  rewrite get_disk_info_eq. cbn [last_time last_disk_io last_net_io].
  do 4 eexists. split; [reflexivity|].
  rewrite get_network_info_eq. cbn [last_time last_disk_io last_net_io].
  split; [reflexivity|]. repeat split.
Qed.

End Rates.

(** ** The report generator *)

Module ReportFacts.
Import Monitor PDFReportGenerator PyFacts.

Lemma _calculate_statistics_eq l : _calculate_statistics l = Ok (statistics l).
Proof.
  destruct l as [|x xs]; [reflexivity|].
  unfold _calculate_statistics, statistics.
  rewrite truediv_nonzero; [reflexivity|].
  unfold Qeq, inject_Z. cbn [Qnum Qden List.length]. lia.
Qed.

Lemma stats_rows_eq series : stats_rows series = Ok (map statistics series).
Proof.
  induction series as [|l series IH]; [reflexivity|].
  cbn [stats_rows fold_right map]. fold (stats_rows series).
  now rewrite IH, _calculate_statistics_eq.
Qed.

Lemma chart_section_eq s series :
  chart_section s series =
  Ok [Heading s; LineChart s series; StatsTable s (map statistics series)].
Proof. unfold chart_section. now rewrite stats_rows_eq. Qed.

(** [build_story] returns for every buffer, whatever its length. *)
Lemma build_story_eq rd st en :
  build_story rd st en =
  Ok ([Title;
       InfoTable st en (List.length rd)
         (match rd with d0 :: _ => system d0 | [] => None end)]
      ++ [Heading CpuMemory;
          LineChart CpuMemory [cpu_data rd; memory_data rd];
          StatsTable CpuMemory (map statistics [cpu_data rd; memory_data rd])]
      ++ gpu_part rd
      ++ [Heading Network;
          LineChart Network [network_sent rd; network_recv rd];
          StatsTable Network (map statistics [network_sent rd; network_recv rd])]
      ++ [Heading DiskIO;
          LineChart DiskIO [disk_read rd; disk_write rd];
          StatsTable DiskIO (map statistics [disk_read rd; disk_write rd])]
      ++ partition_section rd).
Proof.
  unfold build_story, gpu_part. rewrite !chart_section_eq.
  destruct (gpu_load rd); reflexivity.
Qed.

Lemma comprehension_map {A B C} (g : A -> option B) (f : B -> C) (l : list A) :
  comprehension (fun d => option_map f (g d)) l = map f (comprehension g l).
Proof.
  unfold comprehension. induction l as [|d l IH]; [reflexivity|].
  cbn [flat_map]. rewrite IH. destruct (g d); reflexivity.
Qed.

Lemma comprehension_nil {A B} (g : A -> option B) (l : list A) :
  comprehension g l = [] <-> forall d, In d l -> g d = None.
Proof.
  unfold comprehension. induction l as [|d l IH]; cbn [flat_map].
  - split; [intros _ d []|reflexivity].
  - destruct (g d) eqn:E.
    + split; [discriminate|]. intros H. specialize (H d (or_introl eq_refl)). congruence.
    + cbn [app]. rewrite IH. split.
      * intros H d' [<-|Hin]; [assumption|now apply H].
      * intros H d' Hin. apply H. now right.
Qed.

Lemma partition_section_no_gpu rd : ~ In (Heading Gpu) (partition_section rd).
Proof.
  unfold partition_section.
  destruct (last (map Some rd) None) as [d|]; [|intros []].
  destruct (disk d) as [di|]; [|intros []].
  destruct (partitions di); cbn; intuition discriminate.
Qed.

(** The GPU heading is in the story exactly when the GPU load series is
    not empty. *)
Lemma gpu_heading_iff rd st en story :
  build_story rd st en = Ok story ->
  (In (Heading Gpu) story <-> gpu_load rd <> []).
Proof.
  rewrite build_story_eq. intros [= <-].
  unfold gpu_part. split.
  - intros H E. rewrite E in H. cbn in H.
    repeat (destruct H as [H|H]; [discriminate H|]).
    now apply partition_section_no_gpu in H.
  - intros Hne. destruct (gpu_load rd); [congruence|].
    cbn. do 5 right. now left.
Qed.

Lemma gpu_load_nonempty_iff rd :
  gpu_load rd <> [] <->
  first_gpu_available rd = true /\ exists d, In d rd /\ first_gpu d <> None.
Proof.
  unfold gpu_load, gpu_series.
  destruct (first_gpu_available rd).
  - rewrite comprehension_map. split.
    + intros H. split; [reflexivity|].
      destruct (comprehension first_gpu rd) eqn:E; [now elim H|].
      assert (Hn : ~ (forall d, In d rd -> first_gpu d = None)).
      { intro Hall. apply comprehension_nil in Hall. congruence. }
      clear -Hn. induction rd as [|d rd IH].
      * elim Hn. intros d [].
      * destruct (first_gpu d) eqn:Ed.
        -- exists d. split; [now left|congruence].
        -- destruct IH as (d' & Hin & Hd').
           ++ intro Hall. apply Hn. intros d' [<-|Hin]; [assumption|now apply Hall].
           ++ exists d'. split; [now right|assumption].
    + intros [_ (d & Hin & Hd)] E. apply map_eq_nil in E.
      apply comprehension_nil with (d := d) in E; [contradiction|assumption].
  - split; [intros H; now elim H|intros [H _]; discriminate H].
Qed.

Lemma comprehension_through {A B} (f : A -> option B) (h : A -> A) (l : list A) :
  (forall d, f (h d) = f d) -> comprehension f (map h l) = comprehension f l.
Proof.
  intros Hf. unfold comprehension. induction l as [|d l IH]; [reflexivity|].
  cbn [map flat_map]. now rewrite IH, Hf.
Qed.

Lemma last_map_Some {A} (h : A -> A) (l : list A) :
  last (map Some (map h l)) None = option_map h (last (map Some l) None).
Proof.
  induction l as [|d l IH]; [reflexivity|].
  destruct l as [|d' l]; [reflexivity|].
  cbn [map last] in *. exact IH.
Qed.

(** No part of the story reads the CPU temperature: the series
    [cpu_temp_data] is not used. *)
Lemma story_ignores_cpu_temperature t rd st en :
  build_story (map (Policy.with_cpu_temperature t) rd) st en = build_story rd st en.
Proof.
  set (h := Policy.with_cpu_temperature t).
  assert (Hav : first_gpu_available (map h rd) = first_gpu_available rd)
    by (destruct rd; reflexivity).
  assert (Hg : forall f, gpu_series f (map h rd) = gpu_series f rd).
  { intros f. unfold gpu_series. rewrite Hav.
    destruct (first_gpu_available rd); [|reflexivity].
    now apply comprehension_through. }
  rewrite !build_story_eq. unfold gpu_part, gpu_load, gpu_memory, gpu_temp.
  rewrite !Hg, length_map.
  unfold cpu_data, memory_data, network_sent, network_recv, disk_read, disk_write.
  rewrite !comprehension_through
    by (intros d; cbn [h Policy.with_cpu_temperature cpu memory network disk];
        try reflexivity; destruct (cpu d); reflexivity).
  replace (partition_section (map h rd)) with (partition_section rd).
  - destruct rd; reflexivity.
  - unfold partition_section. rewrite last_map_Some.
    destruct (last (map Some rd) None); reflexivity.
Qed.

(** An absent GPU metric and an explicit zero give the same report. *)
Lemma story_reads_absent_gpu_metrics_as_zero rd st en :
  build_story (map Policy.with_absent_gpu_metrics_as_zero rd) st en = build_story rd st en.
Proof.
  set (h := Policy.with_absent_gpu_metrics_as_zero).
  assert (Hav : first_gpu_available (map h rd) = first_gpu_available rd).
  { destruct rd as [|d0 rd]; [reflexivity|]. cbn. destruct (gpu d0); reflexivity. }
  assert (Hfirst : forall (f : option Q -> option Q -> option Q -> Q) d,
            (forall e, f (Policy.zero_if_absent (load e))
                         (Policy.zero_if_absent (memory_percent e))
                         (Policy.zero_if_absent (temperature e))
                       = f (load e) (memory_percent e) (temperature e)) ->
            option_map (fun e => f (load e) (memory_percent e) (temperature e))
              (first_gpu (h d))
            = option_map (fun e => f (load e) (memory_percent e) (temperature e))
                (first_gpu d)).
  { intros f d Hf. unfold first_gpu, h, Policy.with_absent_gpu_metrics_as_zero.
    cbn [gpu]. destruct (gpu d) as [g|]; [|reflexivity]. cbn [option_map gpus].
    destruct (gpus g) as [|e es]; [reflexivity|]. cbn. now rewrite Hf. }
  assert (Hg : gpu_load (map h rd) = gpu_load rd /\
               gpu_memory (map h rd) = gpu_memory rd /\
               gpu_temp (map h rd) = gpu_temp rd).
  { unfold gpu_load, gpu_memory, gpu_temp, gpu_series. rewrite Hav.
    destruct (first_gpu_available rd); [|repeat split].
    repeat split; apply comprehension_through; intros d.
    - apply (Hfirst (fun l _ _ => default0 l)). intros e. now destruct (load e).
    - apply (Hfirst (fun _ m _ => default0 m)). intros e. now destruct (memory_percent e).
    - apply (Hfirst (fun _ _ t => Py.or0 t)). intros e. now destruct (temperature e). }
  destruct Hg as (Hl & Hm & Ht).
  rewrite !build_story_eq. unfold gpu_part. rewrite Hl, Hm, Ht, length_map.
  unfold cpu_data, memory_data, network_sent, network_recv, disk_read, disk_write.
  rewrite !comprehension_through by (intros d; reflexivity).
  replace (partition_section (map h rd)) with (partition_section rd).
  - destruct rd; reflexivity.
  - unfold partition_section. rewrite last_map_Some.
    destruct (last (map Some rd) None); reflexivity.
Qed.

(** The statistics tables of a story, section by section. *)
Lemma stats_tables_of_story rd st en s rows :
  In (StatsTable s rows)
     ([Title;
       InfoTable st en (List.length rd)
         (match rd with d0 :: _ => system d0 | [] => None end)]
      ++ [Heading CpuMemory;
          LineChart CpuMemory [cpu_data rd; memory_data rd];
          StatsTable CpuMemory (map statistics [cpu_data rd; memory_data rd])]
      ++ gpu_part rd
      ++ [Heading Network;
          LineChart Network [network_sent rd; network_recv rd];
          StatsTable Network (map statistics [network_sent rd; network_recv rd])]
      ++ [Heading DiskIO;
          LineChart DiskIO [disk_read rd; disk_write rd];
          StatsTable DiskIO (map statistics [disk_read rd; disk_write rd])]
      ++ partition_section rd) ->
  stats_rows
    (match s with
     | CpuMemory => [cpu_data rd; memory_data rd]
     | Gpu => [gpu_load rd; gpu_memory rd; gpu_temp rd]
     | Network => [network_sent rd; network_recv rd]
     | DiskIO => [disk_read rd; disk_write rd]
     | DiskPartitions => []
     end) = Ok rows /\ s <> DiskPartitions.
Proof.
  cbn [app]. intros H.
  repeat (destruct H as [H|H]; [try discriminate H|]).
  - injection H as <- <-. split; [apply stats_rows_eq|discriminate].
  - apply in_app_or in H. destruct H as [H|H].
    + assert (Hg : gpu_part rd = [] \/
                   gpu_part rd =
                     [Heading Gpu;
                      LineChart Gpu [gpu_load rd; gpu_memory rd; gpu_temp rd];
                      StatsTable Gpu
                        (map statistics [gpu_load rd; gpu_memory rd; gpu_temp rd])])
        by (unfold gpu_part; destruct (gpu_load rd); auto).
      destruct Hg as [Hg|Hg]; rewrite Hg in H; [destruct H|].
      destruct H as [H|[H|[H|[]]]]; try discriminate H.
      injection H as <- <-. split; [apply stats_rows_eq|discriminate].
    + repeat (destruct H as [H|H]; [try discriminate H|]).
      * injection H as <- <-. split; [apply stats_rows_eq|discriminate].
      * injection H as <- <-. split; [apply stats_rows_eq|discriminate].
      * exfalso. unfold partition_section in H.
        destruct (last (map Some rd) None) as [d|]; [|destruct H].
        destruct (disk d) as [di|]; [|destruct H].
        destruct H as [H|H]; [discriminate H|].
        destruct (partitions di); [destruct H|].
        destruct H as [H|[H|[]]]; discriminate H.
Qed.

End ReportFacts.

(** ** Claims about the report *)

Module Report.
Import Monitor PDFReportGenerator PyFacts ReportFacts Scenario Policy.

(** C9: on the empty list [_calculate_statistics] returns
    [{'avg': 0, 'min': 0, 'max': 0}]; it raises on no list at all. *)
Theorem empty_series_has_zero_statistics :
  _calculate_statistics [] = Ok {| avg := 0; smin := 0; smax := 0 |} /\
  forall data_list, exists s, _calculate_statistics data_list = Ok s.
Proof.
  split; [reflexivity|].
  intros l. exists (statistics l). apply _calculate_statistics_eq.
Qed.

(** C3, as stated, fails: of two GPU samples with temperatures 50 and
    absent, the second enters the temperature series as 0, so the report
    shows avg 25, min 0, max 50, where leaving the sample out gives
    50, 50, 50. *)
Lemma absent_gpu_temperature_enters_as_zero :
  gpu_temp temperature_lost = [50; 0] /\
  gpu_temp_excluding_absent temperature_lost = [50] /\
  _calculate_statistics (gpu_temp temperature_lost)
    = Ok {| avg := 2500 # 100; smin := 0 # 100; smax := 5000 # 100 |} /\
  _calculate_statistics (gpu_temp_excluding_absent temperature_lost)
    = Ok {| avg := 5000 # 100; smin := 5000 # 100; smax := 5000 # 100 |} /\
  exists story,
    build_story temperature_lost "a" "b" = Ok story /\
    In (StatsTable Gpu
          [statistics [30; 30]; statistics [40; 40];
           {| avg := 2500 # 100; smin := 0 # 100; smax := 5000 # 100 |}]) story.
Proof.
  split; [reflexivity|]. split; [reflexivity|].
  split; [vm_compute; reflexivity|]. split; [vm_compute; reflexivity|].
  eexists. split; [apply build_story_eq|].
  cbn. do 7 right. left. vm_compute. reflexivity.
Qed.

(** C3, amended: a sample without a GPU entry is left out of the three GPU
    series, and every sample with one contributes exactly one value to
    each of them, taken from its first GPU; an absent temperature (and an
    absent load or memory percentage) is counted as the value 0 in the
    statistic of the report: the three rows of the GPU statistics table
    are [_calculate_statistics] of those series, and the report is the
    one obtained with an explicit 0 in place of every absent GPU metric.
    The CPU temperature series is built with the same substitution and no
    statistic is computed from it: every statistics table of the report
    is over the CPU and memory, GPU, network or disk series, and the
    report does not depend on the CPU temperature readings. *)
Theorem gpu_series_take_zero_for_absent rd st en :
  first_gpu_available rd = true ->
  gpu_temp rd = map (fun g => Py.or0 (temperature g)) (comprehension first_gpu rd) /\
  gpu_load rd = map (fun g => default0 (load g)) (comprehension first_gpu rd) /\
  gpu_memory rd = map (fun g => default0 (memory_percent g)) (comprehension first_gpu rd) /\
  List.length (gpu_temp rd) = List.length (comprehension first_gpu rd) /\
  cpu_temp_data rd = map (fun c => Py.or0 (cpu_temperature c)) (comprehension cpu rd) /\
  (forall g, temperature g = None -> Py.or0 (temperature g) = 0) /\
  (forall g t, temperature g = Some t -> Py.or0 (temperature g) == t) /\
  (forall d e, first_gpu d = Some e <->
               exists g rest, gpu d = Some g /\ gpus g = e :: rest) /\
  exists story s_load s_mem s_temp,
    build_story rd st en = Ok story /\
    _calculate_statistics
      (map (fun g => default0 (load g)) (comprehension first_gpu rd)) = Ok s_load /\
    _calculate_statistics
      (map (fun g => default0 (memory_percent g)) (comprehension first_gpu rd)) = Ok s_mem /\
    _calculate_statistics
      (map (fun g => Py.or0 (temperature g)) (comprehension first_gpu rd)) = Ok s_temp /\
    (comprehension first_gpu rd <> [] ->
     In (StatsTable Gpu [s_load; s_mem; s_temp]) story) /\
    build_story (map with_absent_gpu_metrics_as_zero rd) st en = Ok story /\
    (forall t, build_story (map (with_cpu_temperature t) rd) st en = Ok story) /\
    (forall s rows, In (StatsTable s rows) story ->
       s <> DiskPartitions /\
       stats_rows
         (match s with
          | CpuMemory => [cpu_data rd; memory_data rd]
          | Gpu => [gpu_load rd; gpu_memory rd; gpu_temp rd]
          | Network => [network_sent rd; network_recv rd]
          | DiskIO => [disk_read rd; disk_write rd]
          | DiskPartitions => []
          end) = Ok rows).
Proof.
  intros Hav.
  assert (Ht : gpu_temp rd
               = map (fun g => Py.or0 (temperature g)) (comprehension first_gpu rd))
    by (unfold gpu_temp, gpu_series; now rewrite Hav, comprehension_map).
  assert (Hl : gpu_load rd
               = map (fun g => default0 (load g)) (comprehension first_gpu rd))
    by (unfold gpu_load, gpu_series; now rewrite Hav, comprehension_map).
  assert (Hm : gpu_memory rd
               = map (fun g => default0 (memory_percent g)) (comprehension first_gpu rd))
    by (unfold gpu_memory, gpu_series; now rewrite Hav, comprehension_map).
  split; [exact Ht|]. split; [exact Hl|]. split; [exact Hm|].
  split; [now rewrite Ht, length_map|].
  split; [unfold cpu_temp_data; now rewrite comprehension_map|].
  split; [intros g ->; reflexivity|].
  split.
  { intros g t ->. cbn [Py.or0].
    destruct (Qeq_bool t 0) eqn:E; [|reflexivity].
    apply Qeq_bool_iff in E. now symmetry. }
  split.
  { intros d e. unfold first_gpu. destruct (gpu d) as [g|].
    - destruct (gpus g) as [|e0 rest] eqn:Eg; cbn [hd_error].
      + split; [discriminate|]. intros (g' & rest & [= <-] & H).
        rewrite Eg in H. discriminate H.
      + split.
        * intros [= <-]. exists g, rest. now split.
        * intros (g' & rest' & [= <-] & H). rewrite Eg in H. now injection H as <- _.
    - split; [discriminate|]. intros (g & rest & H & _). discriminate H. }
  eexists _, _, _, _.
  split; [apply build_story_eq|].
  split; [apply _calculate_statistics_eq|].
  split; [apply _calculate_statistics_eq|].
  split; [apply _calculate_statistics_eq|].
  split.
  { intros Hne. do 5 apply in_cons. apply in_or_app. left.
    assert (Hg : gpu_part rd =
                   [Heading Gpu;
                    LineChart Gpu [gpu_load rd; gpu_memory rd; gpu_temp rd];
                    StatsTable Gpu
                      (map statistics [gpu_load rd; gpu_memory rd; gpu_temp rd])]).
    { unfold gpu_part. destruct (gpu_load rd) eqn:E; [|reflexivity].
      exfalso. apply Hne. apply (map_eq_nil (fun g => default0 (load g))).
      now rewrite <- Hl. }
    rewrite Hg, Hl, Hm, Ht. right. right. now left. }
  split; [rewrite story_reads_absent_gpu_metrics_as_zero; apply build_story_eq|].
  split; [intros t; rewrite story_ignores_cpu_temperature; apply build_story_eq|].
  intros s rows Hin. apply stats_tables_of_story in Hin. destruct Hin as [H1 H2].
  split; assumption.
Qed.

Lemma gpu_series_take_zero_for_absent_witness :
  first_gpu_available temperature_lost = true /\
  gpu_temp temperature_lost =
    map (fun g => Py.or0 (temperature g)) (comprehension first_gpu temperature_lost) /\
  exists story s_load s_mem s_temp,
    build_story temperature_lost "a" "b" = Ok story /\
    _calculate_statistics
      (map (fun g => Py.or0 (temperature g)) (comprehension first_gpu temperature_lost))
      = Ok s_temp /\
    In (StatsTable Gpu [s_load; s_mem; s_temp]) story /\
    smin s_temp == 0.
Proof.
  split; [reflexivity|].
  destruct (gpu_series_take_zero_for_absent temperature_lost "a" "b" eq_refl)
    as (Ht & _ & _ & _ & _ & _ & _ & _ & story & sl & sm & stt & Hs & _ & _ & Hstat & Hin & _).
  split; [exact Ht|].
  exists story, sl, sm, stt. split; [exact Hs|]. split; [exact Hstat|].
  split; [apply Hin; discriminate|].
  vm_compute in Hstat. injection Hstat as <-. reflexivity.
Defined.

(** C8, as stated, fails: a buffer whose first sample reports the GPU as
    unavailable gets no GPU section although later samples report one,
    and a buffer whose samples all report availability with an empty
    device list gets none either. *)
Lemma gpu_section_missing_despite_availability :
  any_gpu_available gpu_late = true /\
  any_gpu_available gpu_library_without_device = true /\
  exists story1 story2,
    build_story gpu_late "a" "b" = Ok story1 /\
    build_story gpu_library_without_device "a" "b" = Ok story2 /\
    ~ In (Heading Gpu) story1 /\ ~ In (Heading Gpu) story2.
Proof.
  split; [reflexivity|]. split; [reflexivity|].
  do 2 eexists. split; [apply build_story_eq|]. split; [apply build_story_eq|].
  split; cbn; intuition discriminate.
Qed.

(** C8, amended: the GPU section (heading, chart, statistics of load,
    memory percent and temperature) is in the report exactly when the
    first sample reports GPU availability and some sample has a non-empty
    GPU list; its three series are read from the first GPU of each sample
    that has one. *)
Theorem gpu_section_iff_first_sample_available rd st en :
  exists story,
    build_story rd st en = Ok story /\
    (In (Heading Gpu) story <->
     first_gpu_available rd = true /\ exists d, In d rd /\ first_gpu d <> None) /\
    (In (Heading Gpu) story ->
     In (StatsTable Gpu
           (map statistics
              [map (fun g => default0 (load g)) (comprehension first_gpu rd);
               map (fun g => default0 (memory_percent g)) (comprehension first_gpu rd);
               map (fun g => Py.or0 (temperature g)) (comprehension first_gpu rd)]))
        story).
Proof.
  eexists. split; [apply build_story_eq|].
  pose proof (gpu_heading_iff rd st en _ (build_story_eq rd st en)) as Hh.
  split.
  - rewrite Hh. apply gpu_load_nonempty_iff.
  - intros Hin. apply Hh in Hin. pose proof Hin as Hne.
    apply gpu_load_nonempty_iff in Hin. destruct Hin as [Hav _].
    do 5 apply in_cons. apply in_or_app. left.
    unfold gpu_part. destruct (gpu_load rd) eqn:E; [congruence|]. rewrite <- E.
    unfold gpu_temp, gpu_load, gpu_memory, gpu_series. rewrite Hav.
    rewrite !comprehension_map. cbn. right. right. now left.
Qed.

Lemma gpu_section_iff_first_sample_available_witness :
  exists story,
    build_story temperature_lost "a" "b" = Ok story /\
    In (Heading Gpu) story /\
    In (StatsTable Gpu
          (map statistics
             [map (fun g => default0 (load g)) (comprehension first_gpu temperature_lost);
              map (fun g => default0 (memory_percent g))
                (comprehension first_gpu temperature_lost);
              map (fun g => Py.or0 (temperature g))
                (comprehension first_gpu temperature_lost)]))
       story.
Proof.
  destruct (gpu_section_iff_first_sample_available temperature_lost "a" "b")
    as (story & Hs & Hiff & Htab).
  assert (Hin : In (Heading Gpu) story).
  { apply Hiff. split; [reflexivity|].
    exists (sample_with (one_gpu 30 40 (Some 50))). split; [now left|discriminate]. }
  exists story. split; [exact Hs|]. split; [exact Hin|exact (Htab Hin)].
Defined.

(** The series [10, 20, 30] has average 20, minimum 10 and maximum 30. *)
Example statistics_10_20_30 :
  _calculate_statistics [10; 20; 30]
    = Ok {| avg := 2000 # 100; smin := 1000 # 100; smax := 3000 # 100 |}.
Proof. vm_compute. reflexivity. Qed.

End Report.

(** ** Claims about the recording session and the report route *)

Module Session.
Import Monitor App Scenario ReportFacts.

Lemma worker_body_recording GPU os g : recording (worker_body GPU os g) = recording g.
Proof.
  unfold worker_body. destruct (get_all_resources GPU os (monitor g)) as [[data|e] m];
    reflexivity.
Qed.

Lemma worker_body_length GPU os g :
  (List.length (recorded_data (worker_body GPU os g))
   <= S (List.length (recorded_data g)))%nat.
Proof.
  unfold worker_body. destruct (get_all_resources GPU os (monitor g)) as [[data|e] m];
    cbn [recorded_data].
  - rewrite length_app. cbn [List.length]. lia.
  - lia.
Qed.

Lemma inject_succ n : inject_Z (Z.of_nat (S n)) == inject_Z (Z.of_nat n) + 1.
Proof. rewrite Nat2Z.inj_succ. unfold Z.succ. now rewrite inject_Z_plus. Qed.

Lemma passes_recording GPU ticks : forall g k,
  recording (passes GPU ticks g k) = recording g.
Proof.
  unfold passes. induction ticks as [|t ts IH]; intros g [|k]; cbn [firstn fold_left];
    try reflexivity.
  now rewrite IH, worker_body_recording.
Qed.

Lemma passes_length GPU ticks : forall g k,
  (List.length (recorded_data (passes GPU ticks g k))
   <= List.length (recorded_data g) + k)%nat.
Proof.
  unfold passes. induction ticks as [|t ts IH]; intros g [|k]; cbn [firstn fold_left];
    try lia.
  specialize (IH (worker_body GPU (tick_os t) g) k).
  pose proof (worker_body_length GPU (tick_os t) g). lia.
Qed.

(** The loop leaves at the first test at which the flag is off or the
    duration has elapsed: that is after [k] passes, with [k] at most [n]
    once [n] seconds cover what is left of the duration. *)
Lemma recording_worker_loop_leaves GPU start n :
  forall ticks now g,
    forallb tick_ok ticks = true ->
    (n <= List.length ticks)%nat ->
    RECORDING_DURATION - (now - start) <= inject_Z (Z.of_nat n) ->
    exists k,
      (k <= n)%nat /\
      recording_worker_loop GPU start ticks now g
        = Some (set_recording false (passes GPU ticks g k), clock_after ticks now k) /\
      (recording g = true ->
       RECORDING_DURATION <= clock_after ticks now k - start /\
       forall j, (j < k)%nat -> clock_after ticks now j - start < RECORDING_DURATION) /\
      (recording g = false -> k = 0%nat).
Proof.
  induction n as [|n IH]; intros ticks now g Hok Hlen Hleft.
  - exists 0%nat. split; [lia|].
    change (inject_Z (Z.of_nat 0)) with 0 in Hleft.
    assert (Hge : RECORDING_DURATION <= now - start)
      by (unfold RECORDING_DURATION in *; lra).
    assert (Hexit : (if Qlt_le_dec (now - start) RECORDING_DURATION then true else false)
                    = false).
    { destruct (Qlt_le_dec (now - start) RECORDING_DURATION) as [Hlt|_]; [|reflexivity].
      exfalso. apply (Qlt_irrefl (now - start)). eapply Qlt_le_trans; eassumption. }
    split; [destruct ticks; cbn [recording_worker_loop]; rewrite Hexit, andb_false_r;
            reflexivity|].
    split; [|reflexivity].
    intros _. split; [destruct ticks; exact Hge|]. intros j Hj. lia.
  - destruct ticks as [|t ts]; [cbn in Hlen; lia|].
    cbn [recording_worker_loop].
    destruct (recording g) eqn:Hrec; cbn [andb].
    + destruct (Qlt_le_dec (now - start) RECORDING_DURATION) as [Hlt|Hge].
      * cbn [forallb] in Hok. apply andb_prop in Hok. destruct Hok as [Ht Hts].
        unfold tick_ok in Ht. apply andb_prop in Ht. destruct Ht as [Hb Hs].
        apply Qle_bool_iff in Hb. apply Qle_bool_iff in Hs.
        destruct (IH ts (now + tick_busy t + tick_sleep t)
                    (worker_body GPU (tick_os t) g) Hts)
          as (k & Hk & Hrun & Hon & _).
        -- cbn [List.length] in Hlen. lia.
        -- rewrite inject_succ in Hleft. unfold RECORDING_DURATION in *. lra.
        -- exists (S k). split; [lia|]. split; [exact Hrun|]. split; [|discriminate].
           intros _. rewrite worker_body_recording in Hon.
           destruct (Hon Hrec) as [Hend Hbefore]. split; [exact Hend|].
           intros [|j] Hj; [exact Hlt|]. apply Hbefore. lia.
      * exists 0%nat. split; [lia|]. split; [reflexivity|]. split; [|discriminate].
        intros _. split; [exact Hge|]. intros j Hj. lia.
    + exists 0%nat. split; [lia|]. split; [reflexivity|]. split; [discriminate|reflexivity].
Qed.

(** C5: left alone, the worker loop leaves at the first loop test at which
    300 seconds have elapsed on the clock it reads: it makes [k] passes,
    at most 300, every test before the last finds less than 300 seconds
    elapsed and the last finds at least 300; the assignment after the
    loop then clears the [recording] flag.  No stop request is needed,
    and a worker that finds the flag already off makes no pass. *)
Theorem recording_stops_after_duration GPU ticks start now g :
  start <= now ->
  forallb tick_ok ticks = true ->
  (300 <= List.length ticks)%nat ->
  exists g' now' k,
    recording_worker GPU ticks start now g = Some (g', now') /\
    recording g' = false /\
    (recording g = true -> RECORDING_DURATION <= now' - start) /\
    (List.length (recorded_data g') <= List.length (recorded_data g) + 300)%nat /\
    (k <= 300)%nat /\
    now' = clock_after ticks now k /\
    g' = set_recording false (passes GPU ticks g k) /\
    (recording g = true ->
     forall j, (j < k)%nat -> clock_after ticks now j - start < RECORDING_DURATION) /\
    (recording g = false -> k = 0%nat).
Proof.
  intros Hstart Hok Hlen. unfold recording_worker.
  destruct (recording_worker_loop_leaves GPU start 300 ticks now g Hok Hlen)
    as (k & Hk & Hrun & Hon & Hoff).
  { unfold RECORDING_DURATION. change (inject_Z (Z.of_nat 300)) with 300. lra. }
  exists (set_recording false (passes GPU ticks g k)), (clock_after ticks now k), k.
  split; [exact Hrun|]. split; [reflexivity|].
  split; [intros Hrec; exact (proj1 (Hon Hrec))|].
  split.
  { cbn [recorded_data set_recording]. pose proof (passes_length GPU ticks g k). lia. }
  split; [exact Hk|]. split; [reflexivity|]. split; [reflexivity|].
  split; [intros Hrec; exact (proj2 (Hon Hrec))|exact Hoff].
Qed.

Lemma recording_stops_after_duration_witness :
  0 <= 0 /\
  forallb tick_ok (repeat quiet_tick 300) = true /\
  exists g' now' k,
    recording_worker false (repeat quiet_tick 300) 0 0 (session true [])
      = Some (g', now') /\
    recording g' = false /\
    (recording (session true []) = true -> RECORDING_DURATION <= now' - 0) /\
    (k <= 300)%nat /\
    now' = clock_after (repeat quiet_tick 300) 0 k /\
    (recording (session true []) = true ->
     forall j, (j < k)%nat ->
       clock_after (repeat quiet_tick 300) 0 j - 0 < RECORDING_DURATION).
Proof.
  assert (H0 : 0 <= 0) by (vm_compute; discriminate).
  assert (Hok : forallb tick_ok (repeat quiet_tick 300) = true) by (vm_compute; reflexivity).
  split; [exact H0|]. split; [exact Hok|].
  destruct (recording_stops_after_duration false (repeat quiet_tick 300) 0 0
              (session true []) H0 Hok)
    as (g' & now' & k & Hrun & Hoff & Hdur & _ & Hk & Hnow & _ & Hbefore & _).
  { rewrite repeat_length. lia. }
  exists g', now', k. repeat split; assumption.
Defined.

(** On a quiet machine the session records one sample per second for
    exactly 300 seconds. *)
Example quiet_session_records_300_samples :
  exists g',
    recording_worker false (repeat quiet_tick 300) 0 0 (session true [])
      = Some (g', 300) /\
    recording g' = false /\
    List.length (recorded_data g') = 300%nat.
Proof.
  destruct (recording_worker false (repeat quiet_tick 300) 0 0 (session true []))
    as [[g' now']|] eqn:E; vm_compute in E; [|discriminate E].
  injection E as <- <-. eexists. split; [reflexivity|]. split; reflexivity.
Qed.

(** C6: while a session is active, [start_recording] answers
    [already_recording] and assigns no global: the buffer, its length and
    every other global are as before. *)
Theorem start_while_recording_keeps_session now g :
  recording g = true ->
  start_recording now g = (already_recording, g) /\
  List.length (recorded_data (snd (start_recording now g)))
    = List.length (recorded_data g).
Proof.
  intros Hrec. unfold start_recording. rewrite Hrec. split; reflexivity.
Qed.

Lemma start_while_recording_keeps_session_witness :
  recording (session true temperature_lost) = true /\
  start_recording 7 (session true temperature_lost)
    = (already_recording, session true temperature_lost).
Proof.
  split; [reflexivity|].
  exact (proj1 (start_while_recording_keeps_session 7 (session true temperature_lost)
                  eq_refl)).
Defined.

(** C2, as stated, fails for the report builder: called on an empty
    buffer or on a single sample, [PDFReportGenerator.generate_report]
    raises nothing and returns a report. *)
Lemma report_builder_accepts_short_buffers :
  exists story0 story1,
    PDFReportGenerator.generate_report renderer_ok [] "a" "b" = Ok story0 /\
    PDFReportGenerator.generate_report renderer_ok [sample_with no_gpu] "a" "b"
      = Ok story1 /\
    In (PDFReportGenerator.InfoTable "a" "b" 0 None) story0 /\
    In (PDFReportGenerator.InfoTable "a" "b" 1 (system (sample_with no_gpu))) story1.
Proof.
  do 2 eexists.
  split; [vm_compute; reflexivity|]. split; [vm_compute; reflexivity|].
  split; right; left; reflexivity.
Qed.

(** C2, amended: a report request over a buffer of fewer than two samples
    is rejected by the route with the error "Not enough data to generate
    report" (code 400) and no report; the report builder itself makes no
    length check: on the same buffer it builds its story and returns it
    whenever the renderer does. *)
Theorem short_buffer_rejected_by_route_only doc_build g st en :
  (List.length (recorded_data g) < 2)%nat ->
  App.generate_report doc_build g = error "Not enough data to generate report" 400 /\
  exists story,
    PDFReportGenerator.build_story (recorded_data g) st en = Ok story /\
    (doc_build story = Ok tt ->
     PDFReportGenerator.generate_report doc_build (recorded_data g) st en = Ok story).
Proof.
  intros Hlen. split.
  - unfold App.generate_report.
    apply Nat.ltb_lt in Hlen. now rewrite Hlen.
  - eexists. split; [apply build_story_eq|].
    intros Hdoc. unfold PDFReportGenerator.generate_report.
    now rewrite build_story_eq, Hdoc.
Qed.

Lemma short_buffer_rejected_by_route_only_witness :
  (List.length (recorded_data (session false [sample_with no_gpu])) < 2)%nat /\
  App.generate_report renderer_ok (session false [sample_with no_gpu])
    = error "Not enough data to generate report" 400.
Proof.
  assert (H : (List.length (recorded_data (session false [sample_with no_gpu])) < 2)%nat)
    by (simpl; lia).
  split; [exact H|].
  exact (proj1 (short_buffer_rejected_by_route_only renderer_ok
                  (session false [sample_with no_gpu]) "a" "b" H)).
Defined.

End Session.

(** * Further properties of the code *)

(** ** Rounding is monotone *)

Module RoundFacts.
Import PyFacts.

(** The rounded integer is within one half of its argument, and at a tie
    it is the even neighbour. *)
Lemma round_half_even_spec y :
  inject_Z (Py.round_half_even y) - y <= 1 # 2 /\
  y - inject_Z (Py.round_half_even y) <= 1 # 2 /\
  (inject_Z (Py.round_half_even y) - y == 1 # 2 -> Z.even (Py.round_half_even y) = true) /\
  (y - inject_Z (Py.round_half_even y) == 1 # 2 -> Z.even (Py.round_half_even y) = true).
Proof.
  unfold Py.round_half_even. destruct y as [n d]; cbn [Qnum Qden]; cbv zeta.
  pose proof (Z.div_mod n (Zpos d) ltac:(lia)) as Hdm.
  pose proof (Z.mod_pos_bound n (Zpos d) ltac:(lia)) as Hr.
  set (f := (n / Zpos d)%Z) in *. set (r := (n mod Zpos d)%Z) in *. clearbody f r.
  assert (Hf1 : Z.even (f + 1) = negb (Z.even f)).
  { rewrite Z.add_1_r, Z.even_succ, <- Z.negb_even. reflexivity. }
  unfold Qle, Qeq, Qminus, Qplus, Qopp, inject_Z; cbn [Qnum Qden].
  destruct (Z.compare_spec (2 * r) (Zpos d)) as [C|C|C].
  - destruct (Z.even f) eqn:Ev.
    + repeat split; try lia; intros _; exact Ev.
    + repeat split; try lia; intros _; rewrite Hf1; try rewrite Ev; reflexivity.
  - repeat split; try lia.
  - repeat split; try lia.
Qed.

Lemma round_half_even_mono x y :
  x <= y -> (Py.round_half_even x <= Py.round_half_even y)%Z.
Proof.
  intros Hxy.
  destruct (round_half_even_spec x) as (A1 & _ & T1 & _).
  destruct (round_half_even_spec y) as (_ & B2 & _ & T2).
  set (k1 := Py.round_half_even x) in *. set (k2 := Py.round_half_even y) in *.
  clearbody k1 k2.
  destruct (Z_le_gt_dec k1 k2) as [Hle|Hgt]; [assumption|exfalso].
  assert (Hk : inject_Z k2 + 1 <= inject_Z k1).
  { change 1 with (inject_Z 1). rewrite <- inject_Z_plus, <- Zle_Qle. lia. }
  assert (E1 : inject_Z k1 - x == 1 # 2) by (apply Qle_antisym; lra).
  assert (E2 : y - inject_Z k2 == 1 # 2) by (apply Qle_antisym; lra).
  assert (Hk' : inject_Z k1 <= inject_Z k2 + 1) by lra.
  change 1 with (inject_Z 1) in Hk'. rewrite <- inject_Z_plus, <- Zle_Qle in Hk'.
  assert (k1 = k2 + 1)%Z by lia. subst k1.
  specialize (T1 E1). specialize (T2 E2).
  rewrite Z.add_1_r, Z.even_succ, <- Z.negb_even, T2 in T1. discriminate T1.
Qed.

Lemma round_mono x y n : x <= y -> Py.round x n <= Py.round y n.
Proof.
  intros Hxy. unfold Py.round. destruct n.
  - rewrite <- Zle_Qle. now apply round_half_even_mono.
  - set (p := Pos.pow 10 (Pos.of_nat (S n))).
    unfold Qle; cbn [Qnum Qden]. apply Z.mul_le_mono_nonneg_r; [lia|].
    apply round_half_even_mono.
    assert (0 < inject_Z (Zpos p)) by (now unfold Qlt).
    nra.
Qed.

(** An integer is its own rounding, so a whole number of hundredths is a
    fixed point of [round(_, 2)]. *)
Lemma round_half_even_inject k : Py.round_half_even (inject_Z k) = k.
Proof.
  unfold Py.round_half_even, inject_Z; cbn [Qnum Qden].
  rewrite Z.div_1_r, Z.mod_1_r. reflexivity.
Qed.

Lemma round_inject k n : Py.round (inject_Z k) n == inject_Z k.
Proof.
  unfold Py.round. destruct n.
  - now rewrite round_half_even_inject.
  - set (p := Pos.pow 10 (Pos.of_nat (S n))).
    rewrite <- inject_Z_mult, round_half_even_inject.
    unfold Qeq, inject_Z; cbn [Qnum Qden]. lia.
Qed.

End RoundFacts.

(** ** Order properties of [_calculate_statistics] *)

Module StatisticsFacts.
Import Monitor PDFReportGenerator PyFacts RoundFacts ReportFacts.

Lemma min2_le_l a b : Py.min2 a b <= a.
Proof. unfold Py.min2. destruct (Qlt_le_dec b a); [now apply Qlt_le_weak|apply Qle_refl]. Qed.

Lemma min2_le_r a b : Py.min2 a b <= b.
Proof. unfold Py.min2. destruct (Qlt_le_dec b a); [apply Qle_refl|assumption]. Qed.

Lemma max2_ge_l a b : a <= Py.max2 a b.
Proof. unfold Py.max2. destruct (Qlt_le_dec a b); [now apply Qlt_le_weak|apply Qle_refl]. Qed.

Lemma max2_ge_r a b : b <= Py.max2 a b.
Proof. unfold Py.max2. destruct (Qlt_le_dec a b); [apply Qle_refl|assumption]. Qed.

(** [min] returns an element of the list that no element is below. *)
Lemma min_spec xs : forall x,
  In (Py.min x xs) (x :: xs) /\ forall y, In y (x :: xs) -> Py.min x xs <= y.
Proof.
  unfold Py.min. induction xs as [|z xs IH]; intros x; cbn [fold_left].
  - split; [now left|]. intros y [<-|[]]. apply Qle_refl.
  - destruct (IH (Py.min2 x z)) as [Hin Hle]. split.
    + destruct Hin as [E|Hin].
      * rewrite <- E. unfold Py.min2. destruct (Qlt_le_dec z x); [right; now left|now left].
      * right. now right.
    + intros y [<-|[<-|Hy]].
      * eapply Qle_trans; [apply Hle; now left|apply min2_le_l].
      * eapply Qle_trans; [apply Hle; now left|apply min2_le_r].
      * apply Hle. now right.
Qed.

Lemma max_spec xs : forall x,
  In (Py.max x xs) (x :: xs) /\ forall y, In y (x :: xs) -> y <= Py.max x xs.
Proof.
  unfold Py.max. induction xs as [|z xs IH]; intros x; cbn [fold_left].
  - split; [now left|]. intros y [<-|[]]. apply Qle_refl.
  - destruct (IH (Py.max2 x z)) as [Hin Hle]. split.
    + destruct Hin as [E|Hin].
      * rewrite <- E. unfold Py.max2. destruct (Qlt_le_dec x z); [right; now left|now left].
      * right. now right.
    + intros y [<-|[<-|Hy]].
      * eapply Qle_trans; [apply max2_ge_l|apply Hle; now left].
      * eapply Qle_trans; [apply max2_ge_r|apply Hle; now left].
      * apply Hle. now right.
Qed.

End StatisticsFacts.

Module Statistics.
Import Monitor PDFReportGenerator PyFacts RoundFacts ReportFacts StatisticsFacts.

(** X2: every value of the series, rounded to two places, lies between the
    reported minimum and maximum, and both are the rounding of a value of
    the series. *)
Theorem statistics_bracket_every_value data_list x :
  In x data_list ->
  exists s,
    _calculate_statistics data_list = Ok s /\
    smin s <= Py.round x 2 /\ Py.round x 2 <= smax s /\
    exists a b,
      In a data_list /\ In b data_list /\
      smin s = Py.round a 2 /\ smax s = Py.round b 2.
Proof.
  intros Hx. exists (statistics data_list). split; [apply _calculate_statistics_eq|].
  destruct data_list as [|x0 xs]; [destruct Hx|].
  cbn [statistics smin avg smax].
  destruct (min_spec xs x0) as [Hmin_in Hmin]. destruct (max_spec xs x0) as [Hmax_in Hmax].
  split; [apply round_mono; now apply Hmin|].
  split; [apply round_mono; now apply Hmax|].
  exists (Py.min x0 xs), (Py.max x0 xs). repeat split; assumption.
Qed.

Lemma statistics_bracket_every_value_witness :
  In 20 [10; 20; 30] /\
  exists s,
    _calculate_statistics [10; 20; 30] = Ok s /\
    smin s <= Py.round 20 2 /\ Py.round 20 2 <= smax s.
Proof.
  assert (H : In 20 [10; 20; 30]) by (simpl; right; left; reflexivity).
  split; [exact H|].
  destruct (statistics_bracket_every_value [10; 20; 30] 20 H) as (s & Hs & H1 & H2 & _).
  exists s. split; [exact Hs|]. split; [exact H1|exact H2].
Defined.

End Statistics.

(** ** The CPU temperature lookup *)

Module SensorsFacts.
Import Monitor Sensors PyFacts RoundFacts.

Lemma first_current_none temps :
  first_current temps = None <-> Forall (fun p => snd p = []) temps.
Proof.
  induction temps as [|[name entries] temps IH]; cbn [first_current].
  - split; [constructor|reflexivity].
  - destruct entries as [|c cs].
    + rewrite IH. split; [now constructor|now inversion 1].
    + split; [discriminate|]. inversion 1 as [|? ? Hhd _]. discriminate Hhd.
Qed.

(** X3: [_get_cpu_temperature] returns [None] exactly when the WMI block
    yields nothing (library missing, query raising, or no thermal zone)
    and the psutil block yields nothing either (call raising, or no
    sensor with an entry). *)
Theorem cpu_temperature_none_iff WMI_AVAILABLE thermal_zones sensors :
  _get_cpu_temperature WMI_AVAILABLE thermal_zones sensors = None <->
  (WMI_AVAILABLE = false \/ thermal_zones = Ok [] \/ exists e, thermal_zones = Raise e) /\
  ((exists e, sensors = Raise e) \/
   exists temps, sensors = Ok temps /\ Forall (fun p => snd p = []) temps).
Proof.
  unfold _get_cpu_temperature. split.
  - intros H. split.
    + destruct WMI_AVAILABLE; [|now left]. right.
      destruct thermal_zones as [[|k zs]|e]; [now left| discriminate H | right; now exists e].
    + assert (Hs : match sensors with
                   | Ok temps => first_current temps
                   | Raise _ => None
                   end = None).
      { destruct WMI_AVAILABLE; [|exact H].
        destruct thermal_zones as [[|k zs]|e]; [exact H|discriminate H|exact H]. }
      destruct sensors as [temps|e]; [right|left; now exists e].
      exists temps. split; [reflexivity|]. now apply first_current_none.
  - intros [Hw Hs].
    assert (Hfirst : (if WMI_AVAILABLE
                      then match thermal_zones with
                           | Ok (temp_kelvin :: _) => Some (celsius temp_kelvin)
                           | _ => None
                           end
                      else None) = None).
    { destruct Hw as [->|[->|[e ->]]]; [reflexivity| |]; destruct WMI_AVAILABLE; reflexivity. }
    replace (if WMI_AVAILABLE
             then match thermal_zones with
                  | Ok [] => None
                  | Ok (temp_kelvin :: _) => Some (celsius temp_kelvin)
                  | Raise _ => None
                  end
             else None) with (@None Q)
      by (symmetry; destruct WMI_AVAILABLE; [|reflexivity];
          destruct thermal_zones as [[|? ?]|?]; try reflexivity; exact Hfirst).
    destruct Hs as [[e ->]|(temps & -> & Hall)]; [reflexivity|].
    now apply first_current_none.
Qed.

(** [get_cpu_info] reads [psutil.cpu_count()] with its default
    [logical=True] for both core counts, so the two are equal; a missing
    [cpu_freq()] gives both frequencies as 0; and no failure of the
    temperature sensors reaches the caller. *)
Theorem cpu_info_counts_and_defaults percent per_core cpu_count WMI_AVAILABLE
    thermal_zones sensors :
  (forall cpu_freq,
     let info := get_cpu_info percent per_core cpu_freq cpu_count WMI_AVAILABLE
                   thermal_zones sensors in
     cores_physical info = cores_logical info /\
     cores_logical info = cpu_count true /\
     cpu_percent info = percent) /\
  (let info := get_cpu_info percent per_core None cpu_count WMI_AVAILABLE
                 thermal_zones sensors in
   frequency_current info = 0 /\ frequency_max info = 0) /\
  (forall cpu_freq e1 e2,
     cpu_temperature
       (get_cpu_info percent per_core cpu_freq cpu_count WMI_AVAILABLE
          (Raise e1) (Raise e2)) = None).
Proof.
  split; [intros cpu_freq; cbn; auto|]. split; [cbn; auto|].
  intros cpu_freq e1 e2. cbn [get_cpu_info cpu_temperature].
  unfold _get_cpu_temperature. destruct WMI_AVAILABLE; reflexivity.
Qed.

End SensorsFacts.

(** ** The partition table and the interface list *)

Module InventoryFacts.
Import Monitor PyFacts RoundFacts MonitorFacts.

Lemma GB_pos : 0 < GB.
Proof. now unfold GB, Qlt. Qed.

Lemma gb_mono a b :
  (a <= b)%Z -> Py.round (inject_Z a / GB) 2 <= Py.round (inject_Z b / GB) 2.
Proof.
  intros H. apply round_mono.
  apply Qle_shift_div_l; [apply GB_pos|].
  assert (E : inject_Z a / GB * GB == inject_Z a).
  { apply Qdiv_mult_l. now unfold GB, Qeq. }
  rewrite E. now rewrite <- Zle_Qle.
Qed.

(** X5: a partition whose usage raises [PermissionError] is left out and
    does not disturb the others: as long as no usage call raises anything
    else, the table holds exactly the readable partitions, in mount
    order. *)
Theorem partitions_skip_permission_errors mounted :
  (forall p e, ~ In (p, OtherError e) mounted) ->
  collect_partitions mounted
    = Ok (map (fun pu => partition_entry (fst pu) (snd pu)) (readable mounted)) /\
  (List.length (readable mounted) <= List.length mounted)%nat.
Proof.
  induction mounted as [|[p o] mounted IH]; intros Hno.
  - split; [reflexivity|cbn; lia].
  - destruct IH as [IH Hlen]; [intros p' e Hin; apply (Hno p' e); now right|].
    unfold readable in *. cbn [collect_partitions flat_map snd fst].
    destruct o as [u| |e].
    + rewrite IH. cbn [app map List.length fst snd]. split; [reflexivity|lia].
    + rewrite IH. cbn [app List.length]. split; [reflexivity|lia].
    + exfalso. apply (Hno p e). now left.
Qed.

Lemma partitions_skip_permission_errors_witness :
  collect_partitions
    [(Cases.optical_drive, PermissionError); (Cases.root_partition, Usage Cases.half_full)]
    = Ok [partition_entry Cases.root_partition Cases.half_full].
Proof.
  refine (proj1 (partitions_skip_permission_errors
                   [(Cases.optical_drive, PermissionError);
                    (Cases.root_partition, Usage Cases.half_full)] _)).
  intros p' e [H|[H|[]]]; discriminate H.
Defined.

(** X6: in every partition entry the gigabyte figures keep the order of
    the byte counts they are rounded from: used space is never shown
    above the total when it is not above it, and no non-negative byte
    count is shown negative. *)
Theorem partition_gigabytes_keep_order p u :
  (0 <= used u)%Z -> (used u <= total u)%Z ->
  0 <= used_gb (partition_entry p u) /\
  used_gb (partition_entry p u) <= total_gb (partition_entry p u) /\
  part_percent (partition_entry p u) = percent u /\
  mountpoint (partition_entry p u) = part_mountpoint p.
Proof.
  intros H0 Hle. cbn [partition_entry used_gb total_gb part_percent mountpoint].
  split; [|split; [now apply gb_mono|split; reflexivity]].
  apply round_nonneg. apply Qle_shift_div_l; [apply GB_pos|].
  rewrite Qmult_0_l. change 0 with (inject_Z 0). now rewrite <- Zle_Qle.
Qed.

Lemma partition_gigabytes_keep_order_witness :
  (0 <= used Cases.half_full)%Z /\
  (used Cases.half_full <= total Cases.half_full)%Z /\
  used_gb (partition_entry Cases.root_partition Cases.half_full)
    <= total_gb (partition_entry Cases.root_partition Cases.half_full).
Proof.
  assert (H0 : (0 <= used Cases.half_full)%Z) by (simpl; lia).
  assert (H1 : (used Cases.half_full <= total Cases.half_full)%Z) by (simpl; lia).
  split; [exact H0|]. split; [exact H1|].
  exact (proj1 (proj2 (partition_gigabytes_keep_order Cases.root_partition
                         Cases.half_full H0 H1))).
Defined.

(** X7: [get_disk_info] assigns nothing when the partition listing, its
    partition loop or its counter reading raises: the stored counters and
    time are exactly as before.  [get_network_info] is all-or-nothing
    only for its counter reading: when [net_io_counters()] raises the
    monitor is untouched, but when [net_if_addrs()] or [net_if_stats()]
    raises, [last_net_io] and [last_time] have already been advanced to
    the new reading.  When [get_disk_info] returns, only [last_disk_io]
    has changed. *)
Theorem monitor_after_failed_reading disk_partitions t disk_io_counters
    net_io_counters net_if_addrs net_if_stats self :
  (forall e, disk_partitions = Raise e ->
             get_disk_info_os disk_partitions t disk_io_counters self
               = (Raise e, self)) /\
  (forall mounted e,
     disk_partitions = Ok mounted -> collect_partitions mounted = Raise e ->
     get_disk_info_os disk_partitions t disk_io_counters self = (Raise e, self)) /\
  (forall mounted parts e,
     disk_partitions = Ok mounted -> collect_partitions mounted = Ok parts ->
     disk_io_counters = Raise e ->
     get_disk_info_os disk_partitions t disk_io_counters self = (Raise e, self)) /\
  (forall e, net_io_counters = Raise e ->
             get_network_info_os t net_io_counters net_if_addrs net_if_stats self
               = (Raise e, self)) /\
  (forall cur e,
     net_io_counters = Ok cur ->
     (net_if_addrs = Raise e \/
      exists addrs, net_if_addrs = Ok addrs /\ net_if_stats = Raise e) ->
     get_network_info_os t net_io_counters net_if_addrs net_if_stats self
       = (Raise e,
          {| last_net_io := cur; last_disk_io := last_disk_io self; last_time := t |})) /\
  (forall d,
     fst (get_disk_info_os disk_partitions t disk_io_counters self) = Ok d ->
     disk_io_counters =
       Ok (last_disk_io
             (snd (get_disk_info_os disk_partitions t disk_io_counters self))) /\
     last_time (snd (get_disk_info_os disk_partitions t disk_io_counters self))
       = last_time self /\
     last_net_io (snd (get_disk_info_os disk_partitions t disk_io_counters self))
       = last_net_io self /\
     exists mounted,
       disk_partitions = Ok mounted /\
       (List.length (partitions d) <= List.length mounted)%nat).
Proof.
  rewrite get_disk_info_os_eq, get_network_info_os_eq.
  split; [|split; [|split; [|split; [|split]]]].
  - intros e ->. reflexivity.
  - intros mounted e -> H. cbn [read_partitions]. rewrite H. reflexivity.
  - intros mounted parts e -> H ->. cbn [read_partitions]. rewrite H. reflexivity.
  - intros e ->. reflexivity.
  - intros cur e -> [->|(addrs & -> & ->)]; reflexivity.
  - intros d. destruct disk_partitions as [mounted|e']; [|discriminate].
    cbn [read_partitions].
    destruct (collect_partitions mounted) as [ps|e'] eqn:Ec; [|discriminate].
    destruct disk_io_counters as [cur|e']; [|discriminate].
    rewrite get_disk_info_eq. cbn [fst snd last_disk_io last_time last_net_io].
    intros [= <-]. cbn [partitions].
    split; [reflexivity|]. split; [reflexivity|]. split; [reflexivity|].
    exists mounted. split; [reflexivity|].
    clear -Ec. revert ps Ec.
    induction mounted as [|[p o] mounted IH]; intros ps; cbn [collect_partitions].
    + intros [= <-]. cbn. lia.
    + destruct o as [u| |e].
      * destruct (collect_partitions mounted) as [ps'|]; [|discriminate].
        intros [= <-]. specialize (IH ps' eq_refl). cbn [List.length]. lia.
      * intros H. specialize (IH ps H). cbn [List.length]. lia.
      * discriminate.
Qed.

End InventoryFacts.

Module Interfaces.
Import Monitor.
Local Open Scope string_scope.

(** X8: the interface list holds exactly the interfaces of
    [net_if_addrs] that have statistics and are up, each with the speed
    of its statistics; an interface that is down or has no statistics is
    never listed. *)
Theorem listed_interfaces_are_up net_if_addrs net_if_stats i :
  In i (collect_interfaces net_if_addrs net_if_stats) <->
  exists name addrs stats,
    In (name, addrs) net_if_addrs /\
    dict_get name net_if_stats = Some stats /\
    isup stats = true /\
    i = {| if_name := name; if_ip := first_ipv4 addrs;
           if_speed := speed stats; if_is_up := true |}.
Proof.
  unfold collect_interfaces. rewrite in_flat_map. split.
  - intros [[name addrs] [Hin Hi]].
    destruct (dict_get name net_if_stats) as [stats|] eqn:Es; [|destruct Hi].
    destruct (isup stats) eqn:Eu; [|destruct Hi].
    destruct Hi as [<-|[]]. exists name, addrs, stats. now rewrite Eu.
  - intros (name & addrs & stats & Hin & Es & Eu & ->).
    exists (name, addrs). split; [assumption|]. rewrite Es, Eu. now left.
Qed.

(** X9: the address shown for an interface is that of its first
    [AF_INET] entry, and none is shown exactly when it has no such
    entry. *)
Theorem shown_ip_is_first_ipv4 addrs :
  match first_ipv4 addrs with
  | Some ip =>
      exists before a after,
        addrs = (before ++ a :: after)%list /\
        family_name a = "AF_INET" /\ address a = ip /\
        forall b, In b before -> family_name b <> "AF_INET"
  | None => forall a, In a addrs -> family_name a <> "AF_INET"
  end.
Proof.
  induction addrs as [|a addrs IH]; cbn [first_ipv4].
  - intros a [].
  - destruct (String.eqb (family_name a) "AF_INET") eqn:E.
    + apply String.eqb_eq in E. exists [], a, addrs. repeat split; try assumption.
      intros b [].
    + apply String.eqb_neq in E. destruct (first_ipv4 addrs) as [ip|].
      * destruct IH as (before & a' & after & -> & Hf & Ha & Hb).
        exists (a :: before), a', after. repeat split; try assumption.
        intros b [<-|Hin]; [assumption|now apply Hb].
      * intros b [<-|Hin]; [assumption|now apply IH].
Qed.

(** The Ethernet interface of the examples shows its IPv4 address, and a
    down interface is not listed. *)
Example interfaces_of_a_host :
  collect_interfaces [("lo0", []); ("eth0", Cases.eth0_addrs); ("wlan0", [])]
    [("eth0", Cases.up_1000); ("wlan0", Cases.down_0)]
  = [{| if_name := "eth0"; if_ip := Some "192.168.0.2";
        if_speed := 1000; if_is_up := true |}].
Proof. reflexivity. Qed.

End Interfaces.

(** ** The lines of a chart and the report font *)

Module ChartFacts.
Import Charts.
Local Open Scope string_scope.

(** With a non-empty palette every pair is plotted, with its own data and
    label, and line [j] gets colour [(i + j) mod n] of the palette. *)
Lemma plot_from_cycles colors pairs : forall i,
  colors <> [] ->
  exists ls,
    plot_from i pairs colors = Plotted ls /\
    map line_data ls = map fst pairs /\
    map line_label ls = map snd pairs /\
    forall j, (j < List.length pairs)%nat ->
      nth_error (map line_color ls) j
        = nth_error colors ((i + j) mod List.length colors).
Proof.
  induction pairs as [|[data label] pairs IH]; intros i Hne.
  - exists []. repeat split. intros j Hj. cbn in Hj. lia.
  - cbn [plot_from]. destruct colors as [|c0 cs] eqn:Ec; [congruence|].
    rewrite <- Ec in *. assert (Hlen : List.length colors = S (List.length cs)) by now subst.
    rewrite Hlen. rewrite <- Hlen.
    assert (Hlt : (i mod List.length colors < List.length colors)%nat)
      by (apply Nat.mod_upper_bound; lia).
    destruct (nth_error colors (i mod List.length colors)) as [color|] eqn:En.
    + destruct (IH (S i) Hne) as (ls & -> & Hd & Hl & Hc).
      eexists. split; [reflexivity|]. cbn [map fst snd line_data line_label line_color].
      rewrite Hd, Hl. repeat split.
      intros [|j] Hj; cbn [nth_error].
      * now rewrite Nat.add_0_r.
      * rewrite Hc by (cbn [List.length] in Hj; lia).
        now replace (S i + j)%nat with (i + S j)%nat by lia.
    + apply nth_error_None in En. lia.
Qed.

Lemma line_chart_lines_aux data_series labels colors_list :
  let palette := match colors_list with None => default_colors | Some c => c end in
  match _create_line_chart data_series labels colors_list with
  | Plotted ls =>
      List.length ls = Nat.min (List.length data_series) (List.length labels) /\
      map line_data ls = firstn (List.length ls) data_series /\
      map line_label ls = firstn (List.length ls) labels /\
      forall j, (j < List.length ls)%nat ->
        nth_error (map line_color ls) j
          = nth_error palette (j mod List.length palette)
  | ModuloByZero => colors_list = Some [] /\ data_series <> [] /\ labels <> []
  | IndexError => False
  end.
Proof.
  cbv zeta. unfold _create_line_chart.
  remember (match colors_list with None => default_colors | Some c => c end)
    as palette eqn:Ep.
  destruct palette as [|c0 cs].
  - destruct data_series as [|d ds]; [cbn; repeat split; intros j Hj; lia|].
    destruct labels as [|l lbls]; [cbn; repeat split; intros j Hj; lia|].
    cbn. repeat split; try discriminate.
    destruct colors_list as [c|]; [now subst c|discriminate Ep].
  - destruct (plot_from_cycles (c0 :: cs) (combine data_series labels) 0)
      as (ls & -> & Hd & Hl & Hc); [discriminate|].
    assert (Hlen : List.length ls = List.length (combine data_series labels)).
    { rewrite <- (length_map line_data ls), Hd. apply length_map. }
    rewrite length_combine in Hlen. rewrite Hlen. split; [reflexivity|].
    split; [|split].
    + rewrite Hd. clear. revert labels.
      induction data_series as [|d ds IH]; intros [|l lbls]; cbn; try reflexivity.
      now rewrite IH.
    + rewrite Hl. clear. revert labels.
      induction data_series as [|d ds IH]; intros [|l lbls]; cbn; try reflexivity.
      now rewrite IH.
    + intros j Hj. rewrite Hc by (rewrite length_combine; exact Hj). reflexivity.
Qed.

(** X10: [_create_line_chart] plots one line per (series, label) pair
    that [zip] forms, so a series beyond the labels (or a label beyond the
    series) is silently dropped; the colour index never leaves the
    palette, colours repeating cyclically; the only failure is the
    modulo by zero of an explicitly empty palette with something to
    plot. *)
Theorem line_chart_lines data_series labels colors_list :
  let palette := match colors_list with None => default_colors | Some c => c end in
  match _create_line_chart data_series labels colors_list with
  | Plotted ls =>
      List.length ls = Nat.min (List.length data_series) (List.length labels) /\
      map line_data ls = firstn (List.length ls) data_series /\
      map line_label ls = firstn (List.length ls) labels /\
      forall j, (j < List.length ls)%nat ->
        nth_error (map line_color ls) j
          = nth_error palette (j mod List.length palette)
  | ModuloByZero => colors_list = Some [] /\ data_series <> [] /\ labels <> []
  | IndexError => False
  end.
Proof. exact (line_chart_lines_aux data_series labels colors_list). Qed.

(** X11: with distinct colours in the palette and no more lines than
    colours, line [j] gets colour [j] and no two lines share a colour;
    this covers the default palette up to five series. *)
Theorem lines_get_distinct_colours data_series labels colors_list :
  let palette := match colors_list with None => default_colors | Some c => c end in
  NoDup palette ->
  (Nat.min (List.length data_series) (List.length labels) <= List.length palette)%nat ->
  exists ls,
    _create_line_chart data_series labels colors_list = Plotted ls /\
    map line_color ls = firstn (List.length ls) palette /\
    NoDup (map line_color ls).
Proof.
  intros palette Hnd Hle.
  pose proof (line_chart_lines_aux data_series labels colors_list) as H.
  fold palette in H.
  destruct (_create_line_chart data_series labels colors_list) as [ls| |].
  - destruct H as (Hlen & _ & _ & Hc). exists ls. split; [reflexivity|].
    assert (E : map line_color ls = firstn (List.length ls) palette).
    { apply nth_error_ext. intros j.
      destruct (Nat.lt_ge_cases j (List.length ls)) as [Hj|Hj].
      - rewrite Hc by assumption. rewrite nth_error_firstn.
        destruct (Nat.ltb_spec j (List.length ls)) as [_|]; [|lia].
        rewrite Nat.mod_small by lia. reflexivity.
      - rewrite (proj2 (nth_error_None _ _)) by (rewrite length_map; lia).
        symmetry. apply nth_error_None. rewrite length_firstn. lia. }
    split; [exact E|]. rewrite E.
    apply (NoDup_app_remove_r _ (skipn (List.length ls) palette)).
    now rewrite firstn_skipn.
  - destruct H as (Hc & Hd & Hl). exfalso.
    destruct colors_list as [c|]; [|discriminate Hc]. injection Hc as ->.
    destruct data_series; [congruence|]. destruct labels; [congruence|].
    cbn in Hle. lia.
  - destruct H.
Qed.

Lemma lines_get_distinct_colours_witness :
  exists ls,
    _create_line_chart [[1; 2]; [3; 4]; [5; 6]] ["load"; "memory"; "temperature"] None
      = Plotted ls /\
    NoDup (map line_color ls).
Proof.
  destruct (lines_get_distinct_colours [[1; 2]; [3; 4]; [5; 6]]
              ["load"; "memory"; "temperature"] None) as (ls & Hls & _ & Hnd).
  - repeat constructor; simpl; intuition discriminate.
  - simpl. lia.
  - exists ls. split; [exact Hls|exact Hnd].
Defined.

(** X12: [_register_fonts] leaves one of three font names; it keeps the
    default Helvetica exactly when none of the three font files both
    exists and registers, and Malgun Gothic wins over Nanum Gothic
    whenever its regular file exists and registers. *)
Theorem report_font_falls_back_to_helvetica path_exists registerFont :
  let font_name := _register_fonts path_exists registerFont in
  let usable name path :=
    path_exists path = true /\ registerFont name path = Ok tt in
  (font_name = "Helvetica" \/ font_name = "MalgunGothic" \/ font_name = "NanumGothic") /\
  (font_name = "Helvetica" <->
   ~ usable "MalgunGothic" "C:/Windows/Fonts/malgun.ttf" /\
   ~ usable "MalgunGothic" "C:/Windows/Fonts/malgunbd.ttf" /\
   ~ usable "NanumGothic" "C:/Windows/Fonts/NanumGothic.ttf") /\
  (usable "MalgunGothic" "C:/Windows/Fonts/malgun.ttf" -> font_name = "MalgunGothic").
Proof.
  cbv zeta. unfold _register_fonts, font_paths. cbn [register_from].
  change (contains "malgun" "C:/Windows/Fonts/malgun.ttf") with true.
  change (contains "malgun" "C:/Windows/Fonts/malgunbd.ttf") with true.
  change (contains "malgun" "C:/Windows/Fonts/NanumGothic.ttf") with false.
  change (contains "Nanum" "C:/Windows/Fonts/NanumGothic.ttf") with true.
  cbv iota.
  destruct (path_exists "C:/Windows/Fonts/malgun.ttf");
  destruct (registerFont "MalgunGothic" "C:/Windows/Fonts/malgun.ttf") as [[]|?];
  destruct (path_exists "C:/Windows/Fonts/malgunbd.ttf");
  destruct (registerFont "MalgunGothic" "C:/Windows/Fonts/malgunbd.ttf") as [[]|?];
  destruct (path_exists "C:/Windows/Fonts/NanumGothic.ttf");
  destruct (registerFont "NanumGothic" "C:/Windows/Fonts/NanumGothic.ttf") as [[]|?];
  (split; [auto|]); (split; [|intuition congruence]);
  (split; [try discriminate; intros _; intuition congruence | intuition]).
Qed.


End ChartFacts.

(** ** Full samples *)

Module SampleFacts.
Import Monitor Shape PyFacts RoundFacts MonitorFacts.

Lemma readings_succeed_inv os :
  readings_succeed os = true ->
  exists s c m parts dio nio addrs stats,
    os_system os = Ok s /\ os_cpu os = Ok c /\ os_memory os = Ok m /\
    read_partitions (os_disk_partitions os) = Ok parts /\
    os_disk_io os = Ok dio /\ os_net_io os = Ok nio /\
    os_net_if_addrs os = Ok addrs /\ os_net_if_stats os = Ok stats.
Proof.
  unfold readings_succeed.
  destruct (os_system os) as [s|]; [|discriminate].
  destruct (os_cpu os) as [c|]; [|discriminate].
  destruct (os_memory os) as [m|]; [|discriminate].
  destruct (read_partitions (os_disk_partitions os)) as [parts|]; [|discriminate].
  destruct (os_disk_io os) as [dio|]; [|discriminate].
  destruct (os_net_io os) as [nio|]; [|discriminate].
  destruct (os_net_if_addrs os) as [addrs|]; [|discriminate].
  destruct (os_net_if_stats os) as [stats|]; [|discriminate].
  intros _. now exists s, c, m, parts, dio, nio, addrs, stats.
Qed.

(** What a sample is when the readings succeed. *)
Lemma get_all_resources_ok GPU os self s c m parts dio nio addrs stats :
  os_system os = Ok s -> os_cpu os = Ok c -> os_memory os = Ok m ->
  read_partitions (os_disk_partitions os) = Ok parts ->
  os_disk_io os = Ok dio -> os_net_io os = Ok nio ->
  os_net_if_addrs os = Ok addrs -> os_net_if_stats os = Ok stats ->
  exists d n,
    get_all_resources GPU os self =
      (Ok {| timestamp := os_timestamp os;
             timestamp_ms := os_timestamp_ms os;
             system := Some s;
             cpu := Some c;
             gpu := Some (get_gpu_info GPU (os_getGPUs os));
             memory := Some m;
             disk := Some d;
             network := Some n |},
       {| last_net_io := nio; last_disk_io := dio; last_time := os_net_time os |}) /\
    read_speed (io d) =
      reported MB (os_disk_time os - last_time self)
        (psutil.read_bytes dio) (psutil.read_bytes (last_disk_io self)) /\
    bytes_sent_speed n =
      reported KB (os_net_time os - last_time self)
        (psutil.bytes_sent nio) (psutil.bytes_sent (last_net_io self)) /\
    partitions d = parts /\
    interfaces n = collect_interfaces addrs stats.
Proof.
  intros Hs Hc Hm Hp Hd Hn Ha Hst. unfold get_all_resources, bind, lift, ret.
  rewrite Hs, Hc, Hm, get_disk_info_os_eq, Hp, Hd, get_disk_info_eq.
  rewrite get_network_info_os_eq, Hn, Ha, Hst, get_network_info_eq.
  do 2 eexists. split; [reflexivity|]. repeat split.
Qed.

(** What is left of a sample when a reading fails: nothing has been
    assigned when the failure precedes the disk counters; only
    [last_disk_io] when the network counters fail; all three attributes
    when an interface call fails. *)
Lemma get_all_resources_fails GPU os self :
  readings_succeed os = false ->
  exists e,
    fst (get_all_resources GPU os self) = Raise e /\
    (snd (get_all_resources GPU os self) = self \/
     (exists dio,
        os_disk_io os = Ok dio /\ os_net_io os = Raise e /\
        snd (get_all_resources GPU os self) =
          {| last_net_io := last_net_io self;
             last_disk_io := dio;
             last_time := last_time self |}) \/
     (exists dio nio,
        os_disk_io os = Ok dio /\ os_net_io os = Ok nio /\
        (os_net_if_addrs os = Raise e \/ os_net_if_stats os = Raise e) /\
        snd (get_all_resources GPU os self) =
          {| last_net_io := nio;
             last_disk_io := dio;
             last_time := os_net_time os |})).
Proof.
  unfold readings_succeed, get_all_resources, bind, lift, ret.
  destruct (os_system os) as [s|e]; [|intros _; exists e; split; [reflexivity|now left]].
  destruct (os_cpu os) as [c|e]; [|intros _; exists e; split; [reflexivity|now left]].
  destruct (os_memory os) as [m|e]; [|intros _; exists e; split; [reflexivity|now left]].
  rewrite get_disk_info_os_eq.
  destruct (read_partitions (os_disk_partitions os)) as [parts|e];
    [|intros _; exists e; split; [reflexivity|now left]].
  destruct (os_disk_io os) as [dio|e];
    [|intros _; exists e; split; [reflexivity|now left]].
  rewrite get_disk_info_eq, get_network_info_os_eq.
  destruct (os_net_io os) as [nio|e].
  - destruct (os_net_if_addrs os) as [addrs|e].
    + destruct (os_net_if_stats os) as [stats|e]; [discriminate|].
      intros _. exists e. split; [reflexivity|]. right. right.
      exists dio, nio. repeat split. now right.
    + intros _. exists e. split; [reflexivity|]. right. right.
      exists dio, nio. repeat split. now left.
  - intros _. exists e. split; [reflexivity|]. right. left.
    exists dio. repeat split.
Qed.

End SampleFacts.

Module Samples.
Import Monitor Shape PyFacts RoundFacts MonitorFacts SampleFacts.


(** X14: what a failed [get_all_resources] call leaves in the monitor
    depends on where it failed: nothing is changed when a reading that
    precedes the network counters raises (system, CPU, memory, the
    partition listing and loop, the disk counters); only [last_disk_io]
    is newer when
    [net_io_counters()] raises; and when [net_if_addrs()] or
    [net_if_stats()] raises, [last_disk_io], [last_net_io] and
    [last_time] are all those of the failed call, as after a sample that
    succeeded. *)
Theorem monitor_after_failed_sample GPU os self :
  (forall e, gauges_and_disk os = Raise e ->
             get_all_resources GPU os self = (Raise e, self)) /\
  (forall dio e,
     gauges_and_disk os = Ok dio -> os_net_io os = Raise e ->
     get_all_resources GPU os self =
       (Raise e,
        {| last_net_io := last_net_io self;
           last_disk_io := dio;
           last_time := last_time self |})) /\
  (forall dio nio e,
     gauges_and_disk os = Ok dio -> os_net_io os = Ok nio ->
     (os_net_if_addrs os = Raise e \/
      exists addrs, os_net_if_addrs os = Ok addrs /\ os_net_if_stats os = Raise e) ->
     get_all_resources GPU os self =
       (Raise e,
        {| last_net_io := nio;
           last_disk_io := dio;
           last_time := os_net_time os |})).
Proof.
  unfold gauges_and_disk, get_all_resources, bind, lift, ret.
  rewrite get_disk_info_os_eq.
  destruct (os_system os) as [s|e0];
    [|split; [intros e [= ->]; reflexivity|split; intros; discriminate]].
  destruct (os_cpu os) as [c|e0];
    [|split; [intros e [= ->]; reflexivity|split; intros; discriminate]].
  destruct (os_memory os) as [m|e0];
    [|split; [intros e [= ->]; reflexivity|split; intros; discriminate]].
  destruct (read_partitions (os_disk_partitions os)) as [parts|e0];
    [|split; [intros e [= ->]; reflexivity|split; intros; discriminate]].
  destruct (os_disk_io os) as [dio0|e0];
    [|split; [intros e [= ->]; reflexivity|split; intros; discriminate]].
  rewrite get_disk_info_eq, get_network_info_os_eq.
  split; [discriminate|]. split.
  - intros dio e [= <-] ->. reflexivity.
  - intros dio nio e [= <-] -> [->|(addrs & -> & ->)]; reflexivity.
Qed.

Lemma monitor_after_failed_sample_witness :
  gauges_and_disk Cases.interfaces_fail = Ok (Scenario.disk_counters 5242880 0) /\
  get_all_resources false Cases.interfaces_fail Scenario.monitor_at_0 =
    (Raise (ProviderError "net_if_addrs failed"),
     {| last_net_io := Scenario.net_counters 4096 0;
        last_disk_io := Scenario.disk_counters 5242880 0;
        last_time := os_net_time Cases.interfaces_fail |}).
Proof.
  split; [reflexivity|].
  refine (proj2 (proj2 (monitor_after_failed_sample false Cases.interfaces_fail
                          Scenario.monitor_at_0)) _ _ _ eq_refl eq_refl _).
  left. reflexivity.
Defined.

End Samples.

(** ** The live reading *)

Module LiveFacts.
Import Monitor App Live Shape PyFacts MonitorFacts SampleFacts.

Lemma py_int_nonneg x : 0 <= x -> (0 <= py_int x)%Z.
Proof.
  intros H. unfold py_int. apply Z.quot_pos; [|lia].
  unfold Qle in H. cbn in H. lia.
Qed.

Lemma py_int_floor x :
  0 <= x -> inject_Z (py_int x) <= x /\ x < inject_Z (py_int x) + 1.
Proof.
  intros H. assert (E : py_int x = Qfloor x).
  { unfold py_int. destruct x as [n d]. cbn [Qnum Qden Qfloor].
    apply Z.quot_div_nonneg; [|lia]. unfold Qle in H. cbn in H. lia. }
  rewrite E. split; [apply Qfloor_le|].
  pose proof (Qlt_floor x) as L. rewrite inject_Z_plus in L. exact L.
Qed.

Lemma get_resources_ok_inv GPU os now g body :
  fst (get_resources GPU os now g) = inl body ->
  readings_succeed os = true.
Proof.
  unfold get_resources. intros H.
  destruct (readings_succeed os) eqn:E; [reflexivity|].
  destruct (get_all_resources_fails GPU os (monitor g) E) as (e & He & _).
  destruct (get_all_resources GPU os (monitor g)) as [[smp|e'] m]; [discriminate He|].
  discriminate H.
Qed.

End LiveFacts.

Module LiveReading.
Import Monitor App Live Shape PyFacts MonitorFacts SampleFacts LiveFacts.

(** X15: in a live reading taken while recording, the elapsed time is
    the whole number of seconds since the start, and the remaining time
    is what is left of the 300 seconds, never below 0 and never above
    300; outside a recording neither field is present. *)
Theorem live_remaining_time GPU os now g body :
  fst (get_resources GPU os now g) = inl body ->
  (recording g = false ->
   recording_elapsed body = None /\ recording_remaining body = None) /\
  (forall started_at,
     recording g = true -> recording_start_time g = Some started_at ->
     started_at <= now ->
     exists elapsed remaining,
       recording_elapsed body = Some elapsed /\
       recording_remaining body = Some remaining /\
       inject_Z elapsed <= now - started_at /\
       now - started_at < inject_Z elapsed + 1 /\
       (0 <= remaining <= 300)%Z /\
       (elapsed <= 300 -> elapsed + remaining = 300)%Z /\
       (300 <= elapsed -> remaining = 0)%Z).
Proof.
  unfold get_resources.
  destruct (get_all_resources GPU os (monitor g)) as [[smp|e] m]; [|discriminate].
  cbn [fst]. intros [= <-]. cbn [recording_elapsed recording_remaining]. split.
  - intros ->. split; reflexivity.
  - intros started_at -> -> Hle. cbn [fst snd].
    assert (H0 : 0 <= now - started_at) by lra.
    pose proof (py_int_nonneg _ H0) as Hn.
    destruct (py_int_floor _ H0) as [F1 F2].
    exists (py_int (now - started_at)),
           (Z.max 0 (py_int RECORDING_DURATION - py_int (now - started_at))).
    change (py_int RECORDING_DURATION) with 300%Z.
    repeat split; try assumption; lia.
Qed.

Lemma live_remaining_time_witness :
  0 <= 130 /\
  exists body elapsed remaining,
    fst (get_resources false Scenario.quiet_reading 130 (Scenario.session true []))
      = inl body /\
    recording_elapsed body = Some elapsed /\
    recording_remaining body = Some remaining /\
    (0 <= remaining <= 300)%Z /\
    (elapsed <= 300 -> elapsed + remaining = 300)%Z.
Proof.
  assert (H0 : 0 <= 130) by (vm_compute; discriminate).
  split; [exact H0|].
  destruct (fst (get_resources false Scenario.quiet_reading 130 (Scenario.session true [])))
    as [body|err] eqn:E; [|vm_compute in E; discriminate E].
  destruct (proj2 (live_remaining_time false Scenario.quiet_reading 130
                     (Scenario.session true []) body E) 0 eq_refl eq_refl H0)
    as (el & re & He & Hr & _ & _ & Hb & Hs & _).
  exists body, el, re. repeat split; try assumption; apply Hb.
Defined.

(** X16: a live reading changes no recording global and appends nothing,
    but it does write the shared monitor: its counters and time become
    the baseline, so the next recorded sample measures its disk and
    network rates since the live reading, not since the previous recorded
    sample. *)
Theorem live_reading_moves_rate_baseline GPU os1 now g body :
  fst (get_resources GPU os1 now g) = inl body ->
  let g1 := snd (get_resources GPU os1 now g) in
  recording g1 = recording g /\
  recorded_data g1 = recorded_data g /\
  recording_start_time g1 = recording_start_time g /\
  recording_thread g1 = recording_thread g /\
  recorded_count body = List.length (recorded_data g) /\
  exists dio1 nio1,
    os_disk_io os1 = Ok dio1 /\ os_net_io os1 = Ok nio1 /\
    monitor g1 =
      {| last_net_io := nio1; last_disk_io := dio1; last_time := os_net_time os1 |} /\
    forall os2 dio2 nio2,
      readings_succeed os2 = true ->
      os_disk_io os2 = Ok dio2 -> os_net_io os2 = Ok nio2 ->
      exists smp d n,
        recorded_data (worker_body GPU os2 g1) = recorded_data g ++ [smp] /\
        disk smp = Some d /\ network smp = Some n /\
        read_speed (io d) =
          reported MB (os_disk_time os2 - os_net_time os1)
            (psutil.read_bytes dio2) (psutil.read_bytes dio1) /\
        bytes_sent_speed n =
          reported KB (os_net_time os2 - os_net_time os1)
            (psutil.bytes_sent nio2) (psutil.bytes_sent nio1).
Proof.
  intros Hb. cbv zeta. pose proof (get_resources_ok_inv _ _ _ _ _ Hb) as Hok.
  destruct (readings_succeed_inv os1 Hok)
    as (s & c & m & parts1 & dio1 & nio1 & addrs1 & stats1
        & Hs & Hc & Hm & Hp & Hd & Hn & Ha & Hst).
  destruct (get_all_resources_ok GPU os1 (monitor g) _ _ _ _ _ _ _ _
              Hs Hc Hm Hp Hd Hn Ha Hst) as (d1 & n1 & Heq & _).
  unfold get_resources in *. rewrite Heq in *. cbn [fst snd] in *.
  injection Hb as <-. cbn [recorded_count with_monitor recording recorded_data
                            recording_start_time recording_thread monitor].
  repeat (split; [reflexivity|]).
  exists dio1, nio1. repeat (split; [assumption || reflexivity|]).
  intros os2 dio2 nio2 Hok2 Hd2 Hn2.
  destruct (readings_succeed_inv os2 Hok2)
    as (s2 & c2 & m2 & parts2 & dio2' & nio2' & addrs2 & stats2
        & Hs2 & Hc2 & Hm2 & Hp2 & Hd2' & Hn2' & Ha2 & Hst2).
  rewrite Hd2 in Hd2'. injection Hd2' as <-. rewrite Hn2 in Hn2'. injection Hn2' as <-.
  destruct (get_all_resources_ok GPU os2
              {| last_net_io := nio1; last_disk_io := dio1; last_time := os_net_time os1 |}
              _ _ _ _ _ _ _ _ Hs2 Hc2 Hm2 Hp2 Hd2 Hn2 Ha2 Hst2)
    as (d2 & n2 & Heq2 & Hr & Hsn & _).
  unfold worker_body. cbn [monitor with_monitor]. rewrite Heq2. cbn [recorded_data].
  eexists _, d2, n2. split; [reflexivity|]. cbn [disk network].
  repeat split; assumption.
Qed.

Lemma live_reading_moves_rate_baseline_witness :
  exists body,
    fst (get_resources false Scenario.quiet_reading 130 (Scenario.session true [])) = inl body /\
    recorded_data (snd (get_resources false Scenario.quiet_reading 130
                          (Scenario.session true []))) = [].
Proof.
  destruct (fst (get_resources false Scenario.quiet_reading 130 (Scenario.session true [])))
    as [body|err] eqn:E; [|vm_compute in E; discriminate E].
  exists body. split; [reflexivity|].
  exact (proj1 (proj2 (live_reading_moves_rate_baseline false Scenario.quiet_reading 130
                         (Scenario.session true []) body E))).
Defined.

End LiveReading.

(** ** The recording session, continued *)

Module SessionFacts.
Import Monitor App Shape Scenario SampleFacts ReportFacts.

(** One pass appends the sample when the readings succeed and nothing
    otherwise; it leaves the other recording globals alone. *)
Lemma worker_body_trace GPU os g :
  recording (worker_body GPU os g) = recording g /\
  recording_start_time (worker_body GPU os g) = recording_start_time g /\
  recording_thread (worker_body GPU os g) = recording_thread g /\
  exists new,
    recorded_data (worker_body GPU os g) = recorded_data g ++ new /\
    List.length new = (if readings_succeed os then 1 else 0)%nat /\
    Forall (fun d => has_all_keys d = true /\ timestamp d = os_timestamp os) new.
Proof.
  unfold worker_body. destruct (readings_succeed os) eqn:E.
  - destruct (readings_succeed_inv os E)
      as (s & c & m & parts & dio & nio & addrs & stats
          & Hs & Hc & Hm & Hp & Hd & Hn & Ha & Hst).
    destruct (get_all_resources_ok GPU os (monitor g) _ _ _ _ _ _ _ _
                Hs Hc Hm Hp Hd Hn Ha Hst) as (d & n & -> & _).
    repeat split. eexists. split; [reflexivity|]. split; [reflexivity|].
    constructor; [|constructor]. split; reflexivity.
  - destruct (get_all_resources_fails GPU os (monitor g) E) as (e & He & _).
    destruct (get_all_resources GPU os (monitor g)) as [[smp|e'] m]; [discriminate He|].
    repeat split. exists []. cbn [recorded_data]. rewrite app_nil_r.
    split; [reflexivity|]. split; [reflexivity|constructor].
Qed.

Lemma recording_worker_loop_trace GPU start ticks : forall now g g' now',
  recording_worker_loop GPU start ticks now g = Some (g', now') ->
  recording g' = false /\
  recording_start_time g' = recording_start_time g /\
  recording_thread g' = recording_thread g /\
  exists new,
    recorded_data g' = recorded_data g ++ new /\
    (List.length new <= List.length ticks)%nat /\
    Forall (fun d => has_all_keys d = true) new.
Proof.
  induction ticks as [|t ts IH]; intros now g g' now'; cbn [recording_worker_loop].
  - destruct (recording g && _); [discriminate|]. intros [= <- <-].
    repeat split. exists []. cbn [recorded_data set_recording].
    rewrite app_nil_r. repeat split; [cbn; lia|constructor].
  - destruct (recording g && _).
    + intros H. destruct (IH _ _ _ _ H) as (Hoff & Hst & Hth & new & Hnew & Hlen & Hall).
      destruct (worker_body_trace GPU (tick_os t) g)
        as (_ & Hst' & Hth' & new0 & Hnew0 & Hlen0 & Hall0).
      split; [exact Hoff|]. split; [congruence|]. split; [congruence|].
      exists (new0 ++ new). rewrite Hnew, Hnew0, app_assoc. split; [reflexivity|]. split.
      * rewrite length_app, Hlen0. cbn [List.length].
        destruct (readings_succeed (tick_os t)); lia.
      * apply Forall_app. split; [|assumption].
        eapply Forall_impl; [|exact Hall0]. now intros d [Hk _].
    + intros [= <- <-]. repeat split. exists []. cbn [recorded_data set_recording].
      rewrite app_nil_r. repeat split; [cbn; lia|constructor].
Qed.

End SessionFacts.

Module SessionMore.
Import Monitor App Shape Scenario SampleFacts ReportFacts SessionFacts.




(** X19: once the worker has ended on its own, a stop request answers
    [not_recording] and changes nothing, and a start request is accepted:
    it turns the flag on, empties the buffer and keeps the monitor. *)
Theorem finished_session_can_be_restarted GPU ticks start now g g' now' t :
  recording_worker GPU ticks start now g = Some (g', now') ->
  stop_recording g' = (not_recording, g') /\
  fst (start_recording t g') = started t RECORDING_DURATION /\
  recording (snd (start_recording t g')) = true /\
  recorded_data (snd (start_recording t g')) = [] /\
  recording_start_time (snd (start_recording t g')) = Some t /\
  monitor (snd (start_recording t g')) = monitor g'.
Proof.
  intros H. destruct (recording_worker_loop_trace _ _ _ _ _ _ _ H) as (Hoff & _).
  unfold stop_recording, start_recording. rewrite Hoff. cbn. repeat split.
Qed.

Lemma finished_session_can_be_restarted_witness :
  exists g',
    recording_worker false (repeat quiet_tick 3) 0 298 (session true []) = Some (g', 300) /\
    stop_recording g' = (not_recording, g') /\
    fst (start_recording 301 g') = started 301 RECORDING_DURATION.
Proof.
  destruct (recording_worker false (repeat quiet_tick 3) 0 298 (session true []))
    as [[g' now']|] eqn:E; [|vm_compute in E; discriminate E].
  destruct (finished_session_can_be_restarted false (repeat quiet_tick 3) 0 298
              (session true []) g' now' 301 E) as (Hstop & Hstart & _).
  assert (Hnow : now' = 300) by (vm_compute in E; now injection E).
  subst now'. now exists g'.
Defined.

(** X20: starting a session discards what the previous one recorded: the
    buffer is emptied before any sample is taken, the status route shows
    0 samples, and a report requested at that point is rejected for lack
    of data, however long the previous buffer was. *)
Theorem start_discards_previous_buffer doc_build t g :
  recording g = false ->
  fst (start_recording t g) = started t RECORDING_DURATION /\
  recorded_data (snd (start_recording t g)) = [] /\
  Live.status_samples (Live.recording_status (snd (start_recording t g))) = 0%nat /\
  Live.status_recording (Live.recording_status (snd (start_recording t g))) = true /\
  App.generate_report doc_build (snd (start_recording t g))
    = error "Not enough data to generate report" 400.
Proof.
  intros H. unfold start_recording. rewrite H. cbn. repeat split.
Qed.

Lemma start_discards_previous_buffer_witness :
  recording (session false temperature_lost) = false /\
  App.generate_report renderer_ok (session false temperature_lost)
    <> error "Not enough data to generate report" 400 /\
  App.generate_report renderer_ok (snd (start_recording 9 (session false temperature_lost)))
    = error "Not enough data to generate report" 400.
Proof.
  split; [reflexivity|]. split.
  - vm_compute. discriminate.
  - exact (proj2 (proj2 (proj2 (proj2
             (start_discards_previous_buffer renderer_ok 9
                (session false temperature_lost) eq_refl))))).
Defined.

(** X21: stopping an active session answers with the number of samples
    recorded so far, turns the flag off and keeps the buffer and the
    monitor, so the report built afterwards is the report of that buffer;
    a second stop answers [not_recording] and changes nothing. *)
Theorem stop_keeps_the_buffer doc_build g :
  recording g = true ->
  fst (stop_recording g) = stopped (List.length (recorded_data g)) /\
  recording (snd (stop_recording g)) = false /\
  recorded_data (snd (stop_recording g)) = recorded_data g /\
  monitor (snd (stop_recording g)) = monitor g /\
  App.generate_report doc_build (snd (stop_recording g)) = App.generate_report doc_build g /\
  stop_recording (snd (stop_recording g)) = (not_recording, snd (stop_recording g)).
Proof.
  intros H. unfold stop_recording. rewrite H. cbn. repeat split.
Qed.

Lemma stop_keeps_the_buffer_witness :
  recording (session true temperature_lost) = true /\
  fst (stop_recording (session true temperature_lost)) = stopped 2 /\
  recorded_data (snd (stop_recording (session true temperature_lost))) = temperature_lost.
Proof.
  split; [reflexivity|].
  destruct (stop_keeps_the_buffer renderer_ok (session true temperature_lost) eq_refl)
    as (H1 & _ & H2 & _).
  split; [exact H1|exact H2].
Defined.

(** X22: with two samples or more, the report route answers [success]
    with the number of samples exactly when the renderer accepts the
    story, and otherwise answers the renderer's message with code 500;
    the story it renders is built from the whole buffer and is labelled
    with the timestamps of the first and of the last sample. *)
Theorem report_route_with_enough_data doc_build g first second rest :
  recorded_data g = first :: second :: rest ->
  exists story,
    PDFReportGenerator.build_story (recorded_data g) (timestamp first)
      (timestamp (last (second :: rest) first)) = Ok story /\
    In (PDFReportGenerator.InfoTable (timestamp first)
          (timestamp (last (second :: rest) first))
          (List.length (recorded_data g)) (system first)) story /\
    match doc_build story with
    | Ok _ =>
        App.generate_report doc_build g = success story (List.length (recorded_data g))
    | Raise e => App.generate_report doc_build g = error (str e) 500
    end.
Proof.
  intros Hrd. unfold App.generate_report, PDFReportGenerator.generate_report.
  rewrite Hrd. cbn [List.length Nat.ltb Nat.leb].
  change (last (first :: second :: rest) first) with (last (second :: rest) first).
  rewrite build_story_eq.
  eexists. split; [reflexivity|]. split; [right; now left|].
  destruct (doc_build _) as [[]|e]; reflexivity.
Qed.

Lemma report_route_with_enough_data_witness :
  exists story,
    App.generate_report renderer_ok (session false temperature_lost) = success story 2.
Proof.
  destruct (report_route_with_enough_data renderer_ok (session false temperature_lost)
              (sample_with (one_gpu 30 40 (Some 50))) (sample_with (one_gpu 30 40 None)) []
              eq_refl) as (story & _ & _ & H).
  exists story. exact H.
Defined.

End SessionMore.

(** ** The report, continued *)

Module ReportMore.
Import Monitor PDFReportGenerator Shape PyFacts ReportFacts Scenario.

Lemma comprehension_length_le {A B} (f : A -> option B) (l : list A) :
  (List.length (comprehension f l) <= List.length l)%nat.
Proof.
  unfold comprehension. induction l as [|d l IH]; [cbn; lia|].
  cbn [flat_map]. rewrite length_app. destruct (f d); cbn [List.length]; lia.
Qed.

Lemma comprehension_length_all {A B} (f : A -> option B) (l : list A) :
  (forall d, In d l -> f d <> None) ->
  List.length (comprehension f l) = List.length l.
Proof.
  unfold comprehension. induction l as [|d l IH]; intros H; [reflexivity|].
  cbn [flat_map]. rewrite length_app, IH by (intros d' Hd'; apply H; now right).
  specialize (H d (or_introl eq_refl)). destruct (f d); [reflexivity|congruence].
Qed.

(** X23: the three GPU series always have the same length, at most the
    number of samples; and over a buffer whose samples all have the six
    keys, as [get_all_resources] builds them, each of the CPU, memory,
    network and disk series has exactly one point per sample. *)
Theorem series_are_aligned rd :
  List.length (gpu_load rd) = List.length (gpu_memory rd) /\
  List.length (gpu_load rd) = List.length (gpu_temp rd) /\
  (List.length (gpu_load rd) <= List.length rd)%nat /\
  (forallb has_all_keys rd = true ->
   List.length (cpu_data rd) = List.length rd /\
   List.length (memory_data rd) = List.length rd /\
   List.length (network_sent rd) = List.length rd /\
   List.length (network_recv rd) = List.length rd /\
   List.length (disk_read rd) = List.length rd /\
   List.length (disk_write rd) = List.length rd).
Proof.
  unfold gpu_load, gpu_memory, gpu_temp, gpu_series.
  split; [|split; [|split]].
  - destruct (first_gpu_available rd); [|reflexivity].
    now rewrite !comprehension_map, !length_map.
  - destruct (first_gpu_available rd); [|reflexivity].
    now rewrite !comprehension_map, !length_map.
  - destruct (first_gpu_available rd); [apply comprehension_length_le|cbn; lia].
  - intros Hall. rewrite forallb_forall in Hall.
    unfold cpu_data, memory_data, network_sent, network_recv, disk_read, disk_write.
    repeat split; apply comprehension_length_all; intros d Hd;
      specialize (Hall d Hd); unfold has_all_keys in Hall;
      destruct (system d), (cpu d), (gpu d), (memory d), (disk d), (network d);
      cbn; congruence.
Qed.

Lemma gpu_part_no_partition_table rd ps : ~ In (PartitionTable ps) (gpu_part rd).
Proof.
  unfold gpu_part. destruct (gpu_load rd); cbn; intuition discriminate.
Qed.

(** X24: the partition chart and table of the report show the partitions
    of the last sample only, and are left out when that sample lists no
    partition; earlier samples never reach them. *)
Theorem partition_table_shows_last_sample rd st en ps :
  exists story,
    build_story rd st en = Ok story /\
    (In (PartitionTable ps) story <->
     ps <> [] /\
     exists d di,
       last (map Some rd) None = Some d /\ disk d = Some di /\ partitions di = ps).
Proof.
  eexists. split; [apply build_story_eq|].
  cbn [app]. split.
  - intros H. repeat (destruct H as [H|H]; [discriminate H|]).
    apply in_app_or in H. destruct H as [H|H]; [now apply gpu_part_no_partition_table in H|].
    repeat (destruct H as [H|H]; [discriminate H|]).
    unfold partition_section in H.
    destruct (last (map Some rd) None) as [d|]; [|destruct H].
    destruct (disk d) as [di|] eqn:Ed; [|destruct H].
    destruct H as [H|H]; [discriminate H|].
    destruct (partitions di) as [|p0 ps0] eqn:Ep; [destruct H|].
    destruct H as [H|[H|[]]]; [discriminate H|]. injection H as <-.
    split; [discriminate|]. exists d, di. now rewrite Ep.
  - intros (Hne & d & di & Hl & Hd & Hp).
    do 5 right. apply in_or_app. right. do 6 right.
    unfold partition_section. rewrite Hl, Hd, Hp.
    destruct ps as [|p0 ps0]; [congruence|]. right. right. now left.
Qed.

End ReportMore.

(** ** The rate calculator, continued *)

Module RatesMore.
Import Monitor PyFacts RoundFacts MonitorFacts Scenario.

Lemma div_mul_cancel x y : 0 < y -> x / y * y == x.
Proof.
  intros Hy. rewrite Qmult_comm. apply Qmult_div_r.
  intro E. rewrite E in Hy. now apply Qlt_irrefl in Hy.
Qed.

Lemma reported_mono scale td cur cur' last :
  0 < scale -> (cur <= cur')%Z ->
  reported scale td cur last <= reported scale td cur' last.
Proof.
  intros Hs Hc. unfold reported. apply round_mono.
  assert (Hr : rate td cur last <= rate td cur' last).
  { unfold rate. destruct (Qlt_le_dec 0 td) as [Ht|_]; [|apply Qle_refl].
    apply Qle_shift_div_l; [assumption|].
    rewrite div_mul_cancel by assumption. rewrite <- Zle_Qle. lia. }
  apply Qle_shift_div_l; [assumption|].
  now rewrite div_mul_cancel.
Qed.

Lemma rate_nonneg td cur last : (last <= cur)%Z -> 0 <= rate td cur last.
Proof.
  intros Hc. unfold rate. destruct (Qlt_le_dec 0 td) as [Ht|_]; [|apply Qle_refl].
  apply Qle_shift_div_l; [assumption|]. rewrite Qmult_0_l.
  change 0 with (inject_Z 0). rewrite <- Zle_Qle. lia.
Qed.

(** X25: at one instant and from one stored baseline, a larger counter
    reading never gives a smaller reported rate, for the disk and for the
    network alike, whatever the elapsed time. *)
Theorem larger_counter_never_lower_rate parts ifaces t self cur_d cur_d' cur_n cur_n' :
  (psutil.read_bytes cur_d <= psutil.read_bytes cur_d')%Z ->
  (psutil.bytes_sent cur_n <= psutil.bytes_sent cur_n')%Z ->
  exists d d' n n' s1 s2 s3 s4,
    get_disk_info parts t cur_d self = (Ok d, s1) /\
    get_disk_info parts t cur_d' self = (Ok d', s2) /\
    get_network_info ifaces t cur_n self = (Ok n, s3) /\
    get_network_info ifaces t cur_n' self = (Ok n', s4) /\
    read_speed (io d) <= read_speed (io d') /\
    bytes_sent_speed n <= bytes_sent_speed n' /\
    bytes_sent_speed_mb n <= bytes_sent_speed_mb n'.
Proof.
  intros Hd Hn. rewrite !get_disk_info_eq, !get_network_info_eq.
  do 8 eexists. repeat (split; [reflexivity|]).
  cbn [read_speed io bytes_sent_speed bytes_sent_speed_mb].
  pose proof MB_pos. pose proof KB_pos.
  repeat split; apply reported_mono; assumption.
Qed.

Lemma larger_counter_never_lower_rate_witness :
  exists d d' s1 s2,
    get_disk_info [] 2 (disk_counters 4194304 0) monitor_at_0 = (Ok d, s1) /\
    get_disk_info [] 2 (disk_counters 8388608 0) monitor_at_0 = (Ok d', s2) /\
    read_speed (io d) <= read_speed (io d').
Proof.
  destruct (larger_counter_never_lower_rate [] [] 2 monitor_at_0
              (disk_counters 4194304 0) (disk_counters 8388608 0)
              (net_counters 2048 0) (net_counters 2048 0))
    as (d & d' & n & n' & s1 & s2 & s3 & s4 & H1 & H2 & _ & _ & H & _).
  - simpl. lia.
  - simpl. lia.
  - now exists d, d', s1, s2.
Defined.

(** X26: for a counter that did not go backwards, the network rate in
    MB/s is non-negative and never above the same rate in KB/s. *)
Theorem megabyte_rate_within_kilobyte_rate ifaces t cur self :
  (psutil.bytes_sent (last_net_io self) <= psutil.bytes_sent cur)%Z ->
  (psutil.bytes_recv (last_net_io self) <= psutil.bytes_recv cur)%Z ->
  exists n self',
    get_network_info ifaces t cur self = (Ok n, self') /\
    0 <= bytes_sent_speed_mb n /\ bytes_sent_speed_mb n <= bytes_sent_speed n /\
    0 <= bytes_recv_speed_mb n /\ bytes_recv_speed_mb n <= bytes_recv_speed n.
Proof.
  intros Hs Hr. rewrite get_network_info_eq. do 2 eexists. split; [reflexivity|].
  cbn [bytes_sent_speed bytes_recv_speed bytes_sent_speed_mb bytes_recv_speed_mb].
  assert (Hscale : forall r, 0 <= r -> r / MB <= r / KB).
  { intros r H0. apply Qle_shift_div_l; [apply KB_pos|].
    unfold Qdiv. unfold MB, KB.
    change (/ inject_Z (1024 ^ 2)) with (1 # 1048576).
    change (inject_Z 1024) with 1024. nra. }
  repeat split;
    try (apply reported_nonneg; [apply MB_pos|assumption]);
    unfold reported; apply round_mono; apply Hscale; now apply rate_nonneg.
Qed.

Lemma megabyte_rate_within_kilobyte_rate_witness :
  exists n self',
    get_network_info [] 6 (net_counters 3145728 0) monitor_at_5 = (Ok n, self') /\
    bytes_sent_speed_mb n <= bytes_sent_speed n.
Proof.
  destruct (megabyte_rate_within_kilobyte_rate [] 6 (net_counters 3145728 0) monitor_at_5)
    as (n & s & H & _ & Hle & _).
  - simpl. lia.
  - simpl. lia.
  - now exists n, s.
Defined.

End RatesMore.

(** ** The GPU reading *)

Module GpuFacts.
Import Monitor PyFacts RoundFacts.

(** The guard [memoryTotal > 0] protects the division: an entry is built
    for every GPU. *)
Lemma gpu_to_entry_ok g :
  exists mp,
    gpu_to_entry g =
      Ok {| gpu_id := id g;
            gpu_name := name g;
            load := Some (Py.round (gload g * 100) 1);
            memory_total := memoryTotal g;
            memory_used := memoryUsed g;
            memory_free := memoryFree g;
            memory_percent := Some mp;
            temperature := gtemperature g |} /\
    mp = (if Qlt_le_dec 0 (memoryTotal g)
          then Py.round (memoryUsed g / memoryTotal g * 100) 1
          else 0).
Proof.
  unfold gpu_to_entry. destruct (Qlt_le_dec 0 (memoryTotal g)) as [Hpos|Hle].
  - rewrite truediv_nonzero
      by (intro E; rewrite E in Hpos; now apply Qlt_irrefl in Hpos).
    eexists. split; reflexivity.
  - eexists. split; reflexivity.
Qed.

Lemma gpu_list_ok l :
  exists es,
    gpu_list l = Ok es /\
    Forall2 (fun g e => gpu_to_entry g = Ok e) l es.
Proof.
  induction l as [|g l (es & IH & Hall)].
  - exists []. split; [reflexivity|constructor].
  - destruct (gpu_to_entry_ok g) as (mp & Hg & _).
    cbn [gpu_list]. rewrite Hg, IH. eexists. split; [reflexivity|].
    constructor; assumption.
Qed.

Lemma round1_percent x : 0 <= x -> x <= 1 -> 0 <= Py.round (x * 100) 1 <= 100.
Proof.
  intros H0 H1. split.
  - apply round_nonneg. lra.
  - apply Qle_trans with (Py.round (inject_Z 100) 1).
    + apply round_mono. change (inject_Z 100) with 100. lra.
    + apply Qle_lteq. right. apply round_inject.
Qed.

End GpuFacts.

Module Gpu.
Import Monitor PyFacts RoundFacts GpuFacts.

(** X27: [get_gpu_info] reports the GPU as available exactly when the
    library is present and the query returns; it then lists one entry per
    GPU, in order and under the same ids and names. A GPU reporting no
    memory does not blank the list: its memory percentage is 0. *)
Theorem gpu_listing GPU_AVAILABLE getGPUs :
  (available (get_gpu_info GPU_AVAILABLE getGPUs) = true <->
   GPU_AVAILABLE = true /\ exists l, getGPUs = Ok l) /\
  (available (get_gpu_info GPU_AVAILABLE getGPUs) = false ->
   gpus (get_gpu_info GPU_AVAILABLE getGPUs) = []) /\
  (forall l, GPU_AVAILABLE = true -> getGPUs = Ok l ->
     map gpu_id (gpus (get_gpu_info GPU_AVAILABLE getGPUs)) = map id l /\
     map gpu_name (gpus (get_gpu_info GPU_AVAILABLE getGPUs)) = map name l /\
     Forall2 (fun g e => memoryTotal g <= 0 -> memory_percent e = Some 0)
       l (gpus (get_gpu_info GPU_AVAILABLE getGPUs))).
Proof.
  unfold get_gpu_info. destruct GPU_AVAILABLE; cbn [negb].
  - destruct getGPUs as [l|e].
    + destruct (gpu_list_ok l) as (es & -> & Hall). cbn [available gpus].
      split; [split; [intros _; split; [reflexivity|now exists l]|reflexivity]|].
      split; [discriminate|].
      intros l' _ [= <-]. clear -Hall.
      induction Hall as [|g e l es Hge Hall (IH1 & IH2 & IH3)].
      * repeat split; constructor.
      * destruct (gpu_to_entry_ok g) as (mp & Hg & Hmp). rewrite Hg in Hge.
        injection Hge as <-. cbn [map gpu_id gpu_name]. rewrite IH1, IH2.
        repeat split. constructor; [|assumption].
        intros Hz. cbn [memory_percent]. rewrite Hmp.
        destruct (Qlt_le_dec 0 (memoryTotal g)) as [Hpos|_]; [|reflexivity].
        exfalso. apply (Qlt_irrefl 0). eapply Qlt_le_trans; eassumption.
    + cbn [available gpus no_gpu]. split; [split; [discriminate|]|].
      * intros [_ [l H]]. discriminate H.
      * split; [reflexivity|]. intros l _ H. discriminate H.
  - cbn [available gpus no_gpu]. split; [split; [discriminate|]|].
    + intros [H _]. discriminate H.
    + split; [reflexivity|]. intros l H. discriminate H.
Qed.

(** X28: for a GPU whose load is a fraction between 0 and 1 and whose
    used memory is within its total, the entry shows a load and a memory
    percentage between 0 and 100. *)
Theorem gpu_percentages_in_range g :
  0 <= gload g -> gload g <= 1 ->
  0 <= memoryUsed g -> memoryUsed g <= memoryTotal g ->
  exists e ld mp,
    gpu_to_entry g = Ok e /\
    load e = Some ld /\ memory_percent e = Some mp /\
    0 <= ld /\ ld <= 100 /\ 0 <= mp /\ mp <= 100.
Proof.
  intros Hl0 Hl1 Hm0 Hm1. destruct (gpu_to_entry_ok g) as (mp & Hg & Hmp).
  eexists _, _, mp. split; [exact Hg|]. cbn [load memory_percent].
  split; [reflexivity|]. split; [reflexivity|].
  destruct (round1_percent (gload g) Hl0 Hl1) as [A B].
  split; [exact A|]. split; [exact B|].
  rewrite Hmp. destruct (Qlt_le_dec 0 (memoryTotal g)) as [Hpos|_].
  - apply round1_percent.
    + apply Qle_shift_div_l; [assumption|]. now rewrite Qmult_0_l.
    + apply Qle_shift_div_r; [assumption|]. now rewrite Qmult_1_l.
  - split; [apply Qle_refl|]. now unfold Qle.
Qed.

Lemma gpu_percentages_in_range_witness :
  exists e mp,
    gpu_to_entry {| id := 0; name := "GPU 0"; gload := 1 # 2; memoryTotal := 8192;
                    memoryUsed := 2048; memoryFree := 6144; gtemperature := Some 60 |}
      = Ok e /\
    memory_percent e = Some mp /\ 0 <= mp /\ mp <= 100.
Proof.
  destruct (gpu_percentages_in_range
              {| id := 0; name := "GPU 0"; gload := 1 # 2; memoryTotal := 8192;
                 memoryUsed := 2048; memoryFree := 6144; gtemperature := Some 60 |})
    as (e & ld & mp & He & _ & Hmp & _ & _ & H0 & H1);
    try (vm_compute; discriminate).
  now exists e, mp.
Defined.

End Gpu.
